(** * The label/value field resolver of [bread.LabelValueReadView]

    A shallow embedding of [LabelValueReadView.get_context_data] and
    [LabelValueReadView.get_field_label_value] (src/bread/bread.py), and
    the properties of the five resolution modes.

    Python objects are observed by the resolver through [isinstance],
    [hasattr], [getattr], [callable], a call and [str] only; the model
    keeps exactly these observations.  Calls into developer code (the
    methods of the displayed object, the callable evaluators) may raise
    and may have effects: they run in a state-and-exception monad over
    an arbitrary [world]. *)

From stdpp Require Import base option list strings gmap pretty.

Open Scope string_scope.
Open Scope list_scope.

(** ** Values *)

(** What an attribute holds, a call returns, or a label is. *)
Inductive value : Type :=
  | VNone
  | VBool (b : bool)
  | VInt (z : Z)
  | VStr (s : string).

(** Python's [str()] on these values. *)
Definition str (v : value) : string :=
  match v with
  | VNone => "None"
  | VBool true => "True"
  | VBool false => "False"
  | VInt z => pretty z
  | VStr s => s
  end.

(** [label is None] *)
Definition is_None (v : value) : bool :=
  match v with VNone => true | _ => false end.

(** A resolved [(label, value)] tuple. *)
Definition read_field : Type := value * value.

(** An entry of the context dict: a plain value, or the list stored
    under ['read_fields']. *)
Inductive entry : Type :=
  | Entry (v : value)
  | ReadFields (l : list read_field).

Abbreviation context := (gmap string entry).

(** ** Exceptions and the monad of developer code *)

Inductive exn : Type :=
  | ConfigurationError
  | Exception (msg : string).

Inductive result (A : Type) : Type :=
  | Ok (a : A)
  | Raise (e : exn).
Arguments Ok {A} a.
Arguments Raise {A} e.

Section Monad.

(** Everything the invoked code may read or change. *)
Context {world : Type}.

Definition M (A : Type) : Type := world -> result A * world.

Definition ret {A} (a : A) : M A := fun w => (Ok a, w).

Definition raise {A} (e : exn) : M A := fun w => (Raise e, w).

(** Sequencing: an exception ends the computation, and the state
    reached when it was raised is kept. *)
Definition bind {A B} (m : M A) (k : A -> M B) : M B :=
  fun w =>
    match m w with
    | (Ok a, w') => k a w'
    | (Raise e, w') => (Raise e, w')
    end.

(** A list comprehension [[f(x) for x in l]]: left to right, the first
    exception aborts it. *)
Fixpoint comprehension {A B} (f : A -> M B) (l : list A) : M (list B) :=
  match l with
  | [] => ret []
  | x :: l' =>
      bind (f x) (fun y =>
      bind (comprehension f l') (fun ys =>
      ret (y :: ys)))
  end.

End Monad.

Arguments M : clear implicits.

Notation "x <- m ;; k" := (bind m (fun x => k))
  (at level 100, m at next level, right associativity).

Section Resolver.

Variable world : Type.

(** ** The displayed object *)

(** What [getattr(self.object, name)] yields: a plain value, or
    something callable with no argument (a bound method). *)
Inductive attribute : Type :=
  | Plain (v : value)
  | Method (call : M world value).

Definition callable_attr (a : attribute) : bool :=
  match a with Plain _ => false | Method _ => true end.

(** [self.object]: its members by name, and the verbose names of the
    model fields in [_meta]. *)
Record model_instance : Type := {
  members : gmap string attribute;
  verbose_names : gmap string string
}.

Definition hasattr (o : model_instance) (name : string) : bool :=
  bool_decide (is_Some (members o !! name)).

Definition getattr (o : model_instance) (name : string) : M world attribute :=
  match members o !! name with
  | Some attr => ret attr
  | None => raise (Exception "AttributeError")
  end.

(** Modelled from the spec: [get_verbose_name] of [bread/utils.py], which
    is not among the sources.  The label of a field is the human-readable
    name its metadata records under the attribute name, and the lookup
    fails with [ConfigurationError] when the metadata has no such entry. *)
Definition get_verbose_name (o : model_instance) (field_name : string) : M world value :=
  match verbose_names o !! field_name with
  | Some verbose => ret (VStr verbose)
  | None => raise ConfigurationError
  end.

(** ** Evaluators *)

(** The second component of a [fields] tuple.  A string is an instance
    of [six.string_types]; an instance of a subclass of [str] that
    defines [__call__] is a string and callable at once. *)
Inductive evaluator : Type :=
  | Str (s : string)
  | CallableStr (s : string) (f : context -> M world value)
  | Function (f : context -> M world value)
  | Other (v : value).

(** [isinstance(evaluator, six_string_types)], with the text. *)
Definition isinstance_str (e : evaluator) : option string :=
  match e with
  | Str s | CallableStr s _ => Some s
  | Function _ | Other _ => None
  end.

(** [callable(evaluator)], with the function called. *)
Definition callable (e : evaluator) : option (context -> M world value) :=
  match e with
  | CallableStr _ f | Function f => Some f
  | Str _ | Other _ => None
  end.

(** [str(evaluator)].  The code asks for it in mode 5 only, of an
    evaluator that is neither a string nor callable; the text given for
    a function stands for its [repr] and is never returned. *)
Definition str_evaluator (e : evaluator) : string :=
  match e with
  | Str s | CallableStr s _ => s
  | Other v => str v
  | Function _ => "<function>"
  end.

(** ** The resolver *)

(** [LabelValueReadView.get_field_label_value], lines 265-290.  The
    initial [value = ''] is overwritten on every path and is left out. *)
Definition get_field_label_value (object : model_instance)
    (label : value) (evaluator : evaluator) (context_data : context)
    : M world read_field :=
  match isinstance_str evaluator with
  | Some name =>
      if hasattr object name then
        (* This is an instance attr or method *)
        attr <- getattr object name ;;
        (* Modes #1 and #2 *)
        value <- match attr with
                 | Method call => call
                 | Plain v => ret v
                 end ;;
        label <- (if is_None label
                  then get_verbose_name object name
                  else ret label) ;;
        ret (label, value)
      else
        (* It's a simple string (Mode #3) *)
        ret (label, VStr name)
  | None =>
      match callable evaluator with
      | Some f =>
          (* Mode #4 *)
          value <- f context_data ;;
          ret (label, value)
      | None =>
          (* Mode #5 *)
          ret (label, VStr (str_evaluator evaluator))
      end
  end.

(** [LabelValueReadView.get_context_data], lines 257-263; the dict of
    the parent class is the argument [context_data]. *)
Definition get_context_data (object : model_instance)
    (fields : list (value * evaluator)) (context_data : context)
    : M world context :=
  read_fields <-
    comprehension
      (fun '(label, value) =>
         get_field_label_value object label value context_data)
      fields ;;
  ret (<["read_fields" := ReadFields read_fields]> context_data).

End Resolver.

Arguments Plain {world} v.
Arguments Method {world} call.
Arguments Str {world} s.
Arguments CallableStr {world} s f.
Arguments Function {world} f.
Arguments Other {world} v.
Arguments callable_attr {world} a.
Arguments members {world} o : rename.
Arguments verbose_names {world} o : rename.
Arguments getattr {world} o name.
Arguments hasattr {world} o name.
Arguments get_verbose_name {world} o field_name.
Arguments isinstance_str {world} e.
Arguments callable {world} e.
Arguments str_evaluator {world} e.
Arguments get_field_label_value {world} object label evaluator context_data.
Arguments get_context_data {world} object fields context_data.

(** ** The five modes as the documentation states them *)

Inductive mode : Type := Mode1 | Mode2 | Mode3 | Mode4 | Mode5.

Definition priority (m : mode) : nat :=
  match m with
  | Mode1 => 1 | Mode2 => 2 | Mode3 => 3 | Mode4 => 4 | Mode5 => 5
  end.

Section Modes.

Context {world : Type}.

(** The condition of each mode taken alone, as the class docstring
    words it: (1) a string that matches an attribute of the object,
    (2) a string that matches a method name, (3) a string, (4) a
    function, (5) anything.  Several may hold of one evaluator. *)
Definition matches (o : model_instance world) (e : evaluator world)
    (m : mode) : bool :=
  match m with
  | Mode1 =>
      match isinstance_str e with
      | Some name =>
          match members o !! name with
          | Some (Plain _) => true
          | _ => false
          end
      | None => false
      end
  | Mode2 =>
      match isinstance_str e with
      | Some name =>
          match members o !! name with
          | Some (Method _) => true
          | _ => false
          end
      | None => false
      end
  | Mode3 => bool_decide (is_Some (isinstance_str e))
  | Mode4 => bool_decide (is_Some (callable e))
  | Mode5 => true
  end.

(** "First matching mode wins, evaluated in this strict priority order". *)
Definition selected (o : model_instance world) (e : evaluator world) : mode :=
  default Mode5 (List.find (matches o e) [Mode1; Mode2; Mode3; Mode4; Mode5]).

(** A mode applies when its condition holds and that of no mode of
    higher priority does. *)
Definition applies (o : model_instance world) (e : evaluator world)
    (m : mode) : Prop :=
  matches o e m = true /\
  forall m', priority m' < priority m -> matches o e m' = false.

(** The label rule of modes 1 and 2: an absent label is looked up in
    the field metadata under the attribute name. *)
Definition derive_label (o : model_instance world) (label : value)
    (name : string) : M world value :=
  if is_None label then get_verbose_name o name else ret label.

(** What each mode computes, after section 4.1 of the specification. *)
Inductive resolves_in (o : model_instance world) (label : value)
    (context_data : context) (e : evaluator world)
    : mode -> M world read_field -> Prop :=
  | instance_attribute name v :
      isinstance_str e = Some name ->
      members o !! name = Some (Plain v) ->
      resolves_in o label context_data e Mode1
        (l <- derive_label o label name ;; ret (l, v))
  | instance_method name call :
      isinstance_str e = Some name ->
      members o !! name = Some (Method call) ->
      resolves_in o label context_data e Mode2
        (v <- call ;; l <- derive_label o label name ;; ret (l, v))
  | literal_string name :
      isinstance_str e = Some name ->
      resolves_in o label context_data e Mode3
        (ret (label, VStr name))
  | context_aware_callable f :
      callable e = Some f ->
      resolves_in o label context_data e Mode4
        (v <- f context_data ;; ret (label, v))
  | opaque_literal :
      resolves_in o label context_data e Mode5
        (ret (label, VStr (str_evaluator e))).

(** The member's value is obtained, as [v], taking the state from [w]
    to [w1]: read for a plain attribute, returned by the call for a
    method. *)
Definition member_yields (attr : attribute world) (w : world)
    (v : value) (w1 : world) : Prop :=
  match attr with
  | Plain v0 => v0 = v /\ w1 = w
  | Method call => call w = (Ok v, w1)
  end.

(** The invocation a field specification asks for raises [x], taking
    the state from [w] to [w']: the method a string names (mode 2), or
    the evaluator itself when it is no string (mode 4). *)
Definition invocation_raises (o : model_instance world)
    (e : evaluator world) (context_data : context) (w : world)
    (x : exn) (w' : world) : Prop :=
  match isinstance_str e with
  | Some name =>
      exists call, members o !! name = Some (Method call) /\
                   call w = (Raise x, w')
  | None =>
      exists f, callable e = Some f /\ f context_data w = (Raise x, w')
  end.

(** Nothing invoked changes the state: the methods of the object and
    the callable evaluators of the field list. *)
Definition side_effect_free (o : model_instance world)
    (fields : list (value * evaluator world)) (context_data : context)
    : Prop :=
  (forall name call w,
     members o !! name = Some (Method call) -> (call w).2 = w) /\
  (forall label e f w,
     (label, e) ∈ fields -> callable e = Some f ->
     (f context_data w).2 = w).

End Modes.

(** ** A sample configuration

    The state counts the calls made into developer code. *)
Module Sample.

Definition full_name : M nat value :=
  fun n => (Ok (VStr "Ada Lovelace"), n).

Definition visits : M nat value :=
  fun n => (Ok (VInt (Z.of_nat n)), S n).

Definition broken : M nat value :=
  fun n => (Raise (Exception "boom"), S n).

Definition person : model_instance nat := {|
  members :=
    {[ "id" := Plain (VInt 7);
       "nickname" := Plain (VStr "ada");
       "full_name" := Method full_name;
       "visits" := Method visits;
       "broken" := Method broken ]};
  verbose_names :=
    {[ "id" := "ID"; "full_name" := "Full Name" ]}
|}.

(** The same object without the members that count or fail. *)
Definition quiet : model_instance nat := {|
  members :=
    {[ "id" := Plain (VInt 7);
       "nickname" := Plain (VStr "ada");
       "full_name" := Method full_name ]};
  verbose_names :=
    {[ "id" := "ID"; "full_name" := "Full Name" ]}
|}.

(** An object without members and without field metadata. *)
Definition blank : model_instance nat := {|
  members := ∅;
  verbose_names := ∅
|}.

Definition request : context := {[ "object" := Entry (VStr "person") ]}.

Definition frob_all_the_things (context_data : context) : M nat value :=
  fun n =>
    match context_data !! "object" with
    | Some _ => (Ok (VStr "computed"), n)
    | None => (Raise (Exception "KeyError"), n)
    end.

Definition failing (context_data : context) : M nat value :=
  fun n => (Raise (Exception "bang"), S n).

(** The example of the class docstring. *)
Definition fields : list (value * evaluator nat) :=
  [ (VNone, Str "id");
    (VStr "Name", Str "full_name");
    (VStr "Foo", Str "bar");
    (VStr "Stuff", Function frob_all_the_things);
    (VStr "Answer", Other (VInt 42)) ].

Definition resolved : list read_field :=
  [ (VStr "ID", VInt 7);
    (VStr "Name", VStr "Ada Lovelace");
    (VStr "Foo", VStr "bar");
    (VStr "Stuff", VStr "computed");
    (VStr "Answer", VStr "42") ].

End Sample.

(** * The views and the [Bread] class

    The rest of src/bread/bread.py: the names, permissions, templates and
    URLs that [BreadViewMixin], [BrowseView] and [Bread] compute.  What
    the framework supplies (the user, the paginator, [urlencode],
    [str.format], the parent classes' results) is an argument or a field
    of the object it is read from. *)

(** ** Strings *)

(** [str.lower()] and [str.upper()] on ASCII text: the letters change
    case, every other byte is kept. *)
Definition lower_char (c : Ascii.ascii) : Ascii.ascii :=
  let n := Ascii.N_of_ascii c in
  if ((65 <=? n) && (n <=? 90))%N then Ascii.ascii_of_N (n + 32) else c.

Definition upper_char (c : Ascii.ascii) : Ascii.ascii :=
  let n := Ascii.N_of_ascii c in
  if ((97 <=? n) && (n <=? 122))%N then Ascii.ascii_of_N (n - 32) else c.

Fixpoint str_lower (s : string) : string :=
  match s with
  | "" => ""
  | String c s' => String (lower_char c) (str_lower s')
  end.

Fixpoint str_upper (s : string) : string :=
  match s with
  | "" => ""
  | String c s' => String (upper_char c) (str_upper s')
  end.

(** [needle in hay] on strings: [needle] occurs in [hay]. *)
Fixpoint in_str (needle hay : string) : bool :=
  String.prefix needle hay ||
  match hay with
  | "" => false
  | String _ hay' => in_str needle hay'
  end.

(** Truth value of a string: [''] is false. *)
Definition truthy_str (s : string) : bool :=
  match s with "" => false | _ => true end.

(** ** Model classes and view classes *)

(** [model._meta] *)
Record meta : Type := {
  app_label : string;
  object_name : string;
  verbose_name : string;
  verbose_name_plural : string
}.

(** The class attributes of a view class that this file reads. *)
Record view_class : Type := {
  perm_name : string;
  template_name_suffix : string;
  columns : list (string * string)
}.

Definition BrowseView : view_class :=
  {| perm_name := "browse"; template_name_suffix := "browse"; columns := [] |}.
Definition ReadView : view_class :=
  {| perm_name := "read"; template_name_suffix := "read"; columns := [] |}.
Definition LabelValueReadView : view_class :=
  {| perm_name := "read"; template_name_suffix := "label_value_read";
     columns := [] |}.
Definition EditView : view_class :=
  {| perm_name := "change"; template_name_suffix := "edit"; columns := [] |}.
Definition AddView : view_class :=
  {| perm_name := "add"; template_name_suffix := "edit"; columns := [] |}.
Definition DeleteView : view_class :=
  {| perm_name := "delete"; template_name_suffix := "delete"; columns := [] |}.

(** ** [class Bread] *)

Module Bread.

(** A [Bread] object once [__init__] has returned. *)
Record t : Type := {
  model : meta;
  name : string;
  plural_name : string;
  views : string;
  namespace : string;
  base_template : string;
  template_name_pattern : option string;
  form_class : option string;
  exclude : option (list string);
  browse_view : view_class;
  read_view : view_class;
  edit_view : view_class;
  add_view : view_class;
  delete_view : view_class
}.

(** The class given to [Bread]: a model class has [_meta] and is a
    subclass of [Model]; another class may lack either. *)
Record model_class : Type := {
  _meta : option meta;
  is_Model_subclass : bool
}.

(** The attributes of a subclass of [Bread] before [__init__] runs.
    The four flags are [hasattr(self, ...)] for the settings that were
    moved to [BrowseView]. *)
Record config : Type := {
  cfg_model : model_class;
  cfg_plural_name : option string;
  cfg_views : string;
  cfg_namespace : string;
  cfg_base_template : string;
  cfg_template_name_pattern : option string;
  cfg_form_class : option string;
  cfg_exclude : option (list string);
  cfg_browse_view : view_class;
  cfg_read_view : view_class;
  cfg_edit_view : view_class;
  cfg_add_view : view_class;
  cfg_delete_view : view_class;
  has_paginate_by : bool;
  has_columns : bool;
  has_filter : bool;
  has_filterset : bool
}.

(** [for title, column in columns: validate_fieldspec(model, column)]:
    the first column that is refused raises. *)
Fixpoint validate_columns (validate_fieldspec : meta -> string -> option exn)
    (m : meta) (cols : list (string * string)) : option exn :=
  match cols with
  | [] => None
  | (title, column) :: cols' =>
      match validate_fieldspec m column with
      | Some e => Some e
      | None => validate_columns validate_fieldspec m cols'
      end
  end.

(** [Bread.__init__], lines 378-401.  [validate_fieldspec] is the
    function of [bread/utils.py], an argument here: [None] when it
    returns, the exception when it raises. *)
Definition __init__ (validate_fieldspec : meta -> string -> option exn)
    (self : config) : result t :=
  match _meta (cfg_model self) with
  | None => Raise (Exception "AttributeError")
  | Some m =>
      let name := str_lower (object_name m) in
      let views := str_upper (cfg_views self) in
      let plural_name :=
        match cfg_plural_name self with
        | Some p => if truthy_str p then p else name +:+ "s"
        | None => name +:+ "s"
        end in
      if negb (is_Model_subclass (cfg_model self)) then
        Raise (Exception "TypeError")
      else
        match validate_columns validate_fieldspec m
                (columns (cfg_browse_view self)) with
        | Some e => Raise e
        | None =>
            if has_paginate_by self || has_columns self then
              Raise (Exception "ValueError: 'paginate_by' and 'columns' moved")
            else if has_filter self then
              Raise (Exception "ValueError: 'filter' renamed to 'filterset'")
            else if has_filterset self then
              Raise (Exception "ValueError: 'filterset' belongs on BrowseView")
            else
              Ok {| model := m; name := name; plural_name := plural_name;
                    views := views; namespace := cfg_namespace self;
                    base_template := cfg_base_template self;
                    template_name_pattern := cfg_template_name_pattern self;
                    form_class := cfg_form_class self;
                    exclude := cfg_exclude self;
                    browse_view := cfg_browse_view self;
                    read_view := cfg_read_view self;
                    edit_view := cfg_edit_view self;
                    add_view := cfg_add_view self;
                    delete_view := cfg_delete_view self |}
        end
  end.

(** [Bread.get_url_name], lines 472-480. *)
Definition get_url_name (self : t) (view_name : string)
    (include_namespace : bool) : string :=
  let url_namespace :=
    if include_namespace then
      if truthy_str (namespace self) then namespace self +:+ ":" else ""
    else "" in
  if String.eqb view_name "browse" then
    url_namespace +:+ view_name +:+ "_" +:+ plural_name self
  else
    url_namespace +:+ view_name +:+ "_" +:+ name self.

Definition browse_url_name (self : t) (include_namespace : bool) : string :=
  get_url_name self "browse" include_namespace.
Definition read_url_name (self : t) (include_namespace : bool) : string :=
  get_url_name self "read" include_namespace.
Definition edit_url_name (self : t) (include_namespace : bool) : string :=
  get_url_name self "edit" include_namespace.
Definition add_url_name (self : t) (include_namespace : bool) : string :=
  get_url_name self "add" include_namespace.
Definition delete_url_name (self : t) (include_namespace : bool) : string :=
  get_url_name self "delete" include_namespace.

(** The keyword arguments [view_class.as_view] is called with; the
    [form_class] keyword is passed for the read, edit and add views. *)
Record view_function : Type := {
  cls : view_class;
  kw_bread : t;
  kw_model : meta;
  kw_form_class : option (option string)
}.

Definition get_browse_view (self : t) : view_function :=
  {| cls := browse_view self; kw_bread := self; kw_model := model self;
     kw_form_class := None |}.
Definition get_read_view (self : t) : view_function :=
  {| cls := read_view self; kw_bread := self; kw_model := model self;
     kw_form_class := Some (form_class self) |}.
Definition get_edit_view (self : t) : view_function :=
  {| cls := edit_view self; kw_bread := self; kw_model := model self;
     kw_form_class := Some (form_class self) |}.
Definition get_add_view (self : t) : view_function :=
  {| cls := add_view self; kw_bread := self; kw_model := model self;
     kw_form_class := Some (form_class self) |}.
Definition get_delete_view (self : t) : view_function :=
  {| cls := delete_view self; kw_bread := self; kw_model := model self;
     kw_form_class := None |}.

(** [url(regex, view, name=...)] *)
Record url : Type := {
  regex : string;
  view : view_function;
  url_name : string
}.

(** [Bread.get_urls], lines 482-539. *)
Definition get_urls (self : t) (prefix : bool) : list url :=
  let prefix := if prefix then plural_name self +:+ "/" else "" in
  let urlpatterns := [] in
  let urlpatterns :=
    if in_str "B" (views self) then
      urlpatterns ++
      [ {| regex := "^" +:+ prefix +:+ "$";
           view := get_browse_view self;
           url_name := browse_url_name self false |} ]
    else urlpatterns in
  let urlpatterns :=
    if in_str "R" (views self) then
      urlpatterns ++
      [ {| regex := "^" +:+ prefix +:+ "(?P<pk>\d+)/$";
           view := get_read_view self;
           url_name := read_url_name self false |} ]
    else urlpatterns in
  let urlpatterns :=
    if in_str "E" (views self) then
      urlpatterns ++
      [ {| regex := "^" +:+ prefix +:+ "(?P<pk>\d+)/edit/$";
           view := get_edit_view self;
           url_name := edit_url_name self false |} ]
    else urlpatterns in
  let urlpatterns :=
    if in_str "A" (views self) then
      urlpatterns ++
      [ {| regex := "^" +:+ prefix +:+ "add/$";
           view := get_add_view self;
           url_name := add_url_name self false |} ]
    else urlpatterns in
  let urlpatterns :=
    if in_str "D" (views self) then
      urlpatterns ++
      [ {| regex := "^" +:+ prefix +:+ "(?P<pk>\d+)/delete/$";
           view := get_delete_view self;
           url_name := delete_url_name self false |} ]
    else urlpatterns in
  urlpatterns.

End Bread.

(** ** Template contexts and requests *)

(** What the views read of a page of the paginator. *)
Record page : Type := {
  has_next : bool;
  next_page_number : Z;
  has_previous : bool;
  previous_page_number : Z
}.

(** A value of the dict the views build for the template. *)
Inductive cell : Type :=
  | Cell (e : entry)
  | BreadObject (b : Bread.t)
  | Columns (l : list (string * string))
  | Filter (f : option string)
  | PageObj (p : page)
  | Paginator (num_pages : Z).

(** Truth value, as [if] takes it; the objects of the framework count
    as true. *)
Definition truthy (c : cell) : bool :=
  match c with
  | Cell (Entry VNone) => false
  | Cell (Entry (VBool b)) => b
  | Cell (Entry (VInt z)) => negb (z =? 0)%Z
  | Cell (Entry (VStr s)) => truthy_str s
  | Cell (ReadFields l) => negb (bool_decide (l = []))
  | Columns l => match l with [] => false | _ => true end
  | Filter f => match f with None => false | Some _ => true end
  | BreadObject _ | PageObj _ | Paginator _ => true
  end.

(** A value of a query dict: the list of strings of a request
    parameter, or the number given for [page]. *)
Inductive qvalue : Type :=
  | QList (l : list string)
  | QInt (z : Z).

Record User : Type := {
  is_authenticated : bool;
  has_perm : string -> bool
}.

(** [request.GET] is kept as [dict(request.GET)]. *)
Record HttpRequest : Type := {
  user : User;
  path : string;
  get_full_path : string;
  GET : gmap string qvalue
}.

Inductive HttpResponse : Type :=
  | redirect_to_login (next login_url redirect_field_name : string)
  | Response (status_code : Z) (content : string).

(** ** [class BreadViewMixin] *)

Module BreadViewMixin.

(** A view object: the attributes [as_view] and the class set. *)
Record t : Type := {
  bread : Bread.t;
  model : meta;
  class : view_class;
  form_class : option string;
  exclude : option (list string);
  request : HttpRequest
}.

(** [get_full_perm_name], lines 53-58. *)
Definition get_full_perm_name (self : t) (short_name : string) : string :=
  app_label (Bread.model (bread self)) +:+ "." +:+ short_name +:+ "_"
  +:+ str_lower (object_name (Bread.model (bread self))).

(** The property [permission_required], lines 47-49. *)
Definition permission_required (self : t) : string :=
  get_full_perm_name self (perm_name (class self)).

(** [dispatch], lines 80-100.  [permission_required] is a string, so
    the first test never fires.  [login_url] and [redirect_field_name]
    are [settings.LOGIN_URL] and [REDIRECT_FIELD_NAME]; [super_dispatch]
    is the outcome of the parent's [dispatch]. *)
Definition dispatch (login_url redirect_field_name : string)
    (super_dispatch : result HttpResponse)
    (self : t) (request : HttpRequest) : result HttpResponse :=
  if negb (is_authenticated (user request)) then
    Ok (redirect_to_login (get_full_path request) login_url
          redirect_field_name)
  else
    let has_permission := has_perm (user request) (permission_required self) in
    if negb has_permission then
      Raise (Exception "PermissionDenied")
    else
      super_dispatch.


(** [_get_new_url], lines 115-120: [dict.update] lets the new
    parameters win. *)
Definition _get_new_url (urlencode : gmap string qvalue -> string)
    (self : t) (query_parms : gmap string qvalue) : string :=
  let request_kwargs := GET (request self) in
  let request_kwargs := query_parms ∪ request_kwargs in
  path (request self) +:+ "?" +:+ urlencode request_kwargs.

(** [get_context_data], lines 122-146; [data] is the dict of the
    parent class. *)
Definition get_context_data (self : t) (data : gmap string cell)
    : gmap string cell :=
  let data := <["bread" := BreadObject (bread self)]> data in
  let data :=
    <["verbose_name" := Cell (Entry (VStr (verbose_name (model self))))]>
      data in
  let data :=
    <["verbose_name_plural" :=
        Cell (Entry (VStr (verbose_name_plural (model self))))]> data in
  let data :=
    <["base_template" :=
        Cell (Entry (VStr (Bread.base_template (bread self))))]> data in
  let data :=
    <["may_browse" := Cell (Entry (VBool (
        in_str "B" (Bread.views (bread self)) &&
        has_perm (user (request self)) (get_full_perm_name self "browse"))))]>
      data in
  let data :=
    <["may_read" := Cell (Entry (VBool (
        in_str "R" (Bread.views (bread self)) &&
        has_perm (user (request self)) (get_full_perm_name self "read"))))]>
      data in
  let data :=
    <["may_edit" := Cell (Entry (VBool (
        in_str "E" (Bread.views (bread self)) &&
        has_perm (user (request self)) (get_full_perm_name self "change"))))]>
      data in
  let data :=
    <["may_add" := Cell (Entry (VBool (
        in_str "A" (Bread.views (bread self)) &&
        has_perm (user (request self)) (get_full_perm_name self "add"))))]>
      data in
  let data :=
    <["may_delete" := Cell (Entry (VBool (
        in_str "D" (Bread.views (bread self)) &&
        has_perm (user (request self)) (get_full_perm_name self "delete"))))]>
      data in
  data.

(** The class a form is made of: one that was declared, or the result
    of [modelform_factory(model, fields='__all__', exclude=...)]. *)
Inductive form_class_used : Type :=
  | Declared (c : string)
  | modelform_factory (m : meta) (fields : string)
      (exclude : option (list string)).

(** Truth value of [exclude]: [None] and the empty list are false. *)
Definition truthy_list (l : option (list string)) : bool :=
  match l with
  | Some (_ :: _) => true
  | _ => false
  end.

(** [get_form], lines 148-156, up to the call of the class: the class
    that is instantiated. *)
Definition get_form (self : t) : form_class_used :=
  let form_class :=
    match form_class self with
    | Some c => Some c
    | None => Bread.form_class (bread self)
    end in
  match form_class with
  | None =>
      modelform_factory (Bread.model (bread self)) "__all__"
        (if truthy_list (exclude self) then exclude self
         else Bread.exclude (bread self))
  | Some c => Declared c
  end.

(** The property [success_url], lines 158-160: the name handed to
    [reverse_lazy]. *)
Definition success_url (self : t) : string :=
  Bread.browse_url_name (bread self) true.

End BreadViewMixin.

(** ** [class BrowseView] *)

Module BrowseView.

(** [query_parms] of the call [self._get_new_url(page=n)]. *)
Definition page_parm (n : Z) : gmap string qvalue := {[ "page" := QInt n ]}.

(** [BrowseView.get_context_data], lines 187-202; [data] is the dict
    of the parent classes and [filter] is [self.filter]. *)
Definition get_context_data (urlencode : gmap string qvalue -> string)
    (self : BreadViewMixin.t) (filter : option string)
    (data : gmap string cell) : result (gmap string cell) :=
  let new_url n :=
    Cell (Entry (VStr
      (BreadViewMixin._get_new_url urlencode self (page_parm n)))) in
  let data := <["columns" := Columns (columns (BreadViewMixin.class self))]> data in
  let data := <["filter" := Filter filter]> data in
  if truthy (default (Cell (Entry (VBool false))) (data !! "is_paginated"))
  then
    match data !! "page_obj" with
    | None => Raise (Exception "KeyError")
    | Some page_obj =>
        match data !! "paginator" with
        | None => Raise (Exception "KeyError")
        | Some (Paginator num_pages) =>
            match page_obj with
            | PageObj page =>
                let data :=
                  if has_next page then
                    let data :=
                      if negb (next_page_number page =? num_pages)%Z then
                        <["next_url" := new_url (next_page_number page)]> data
                      else data in
                    <["last_url" := new_url num_pages]> data
                  else data in
                let data :=
                  if has_previous page then
                    let data := <["first_url" := new_url 1%Z]> data in
                    if negb (previous_page_number page =? 1)%Z then
                      <["previous_url" :=
                          new_url (previous_page_number page)]> data
                    else data
                  else data in
                Ok data
            | _ => Raise (Exception "AttributeError")
            end
        | Some _ => Raise (Exception "AttributeError")
        end
    end
  else Ok data.

End BrowseView.

(** ** The five operations

    [Bread.get_urls] and [BreadViewMixin.get_context_data] treat browse,
    read, edit, add and delete in five parallel passages; these tables
    index them. *)

Inductive operation : Type := Browse | Read | Edit | Add | Delete.

(** The letter of [Bread.views]. *)
Definition letter (op : operation) : string :=
  match op with
  | Browse => "B" | Read => "R" | Edit => "E" | Add => "A" | Delete => "D"
  end.

(** The view name [get_url_name] is called with. *)
Definition view_name (op : operation) : string :=
  match op with
  | Browse => "browse" | Read => "read" | Edit => "edit" | Add => "add"
  | Delete => "delete"
  end.

(** The key of the template context. *)
Definition may_key (op : operation) : string :=
  match op with
  | Browse => "may_browse" | Read => "may_read" | Edit => "may_edit"
  | Add => "may_add" | Delete => "may_delete"
  end.

(** The view class that serves the operation. *)
Definition standard_class (op : operation) : view_class :=
  match op with
  | Browse => BrowseView | Read => ReadView | Edit => EditView
  | Add => AddView | Delete => DeleteView
  end.

(** The paginator's page [n] of [N], as the views observe it. *)
Definition page_of (n N : Z) (p : page) : Prop :=
  has_next p = (n <? N)%Z /\
  next_page_number p = (n + 1)%Z /\
  has_previous p = (1 <? n)%Z /\
  previous_page_number p = (n - 1)%Z.

(** ** A sample site *)

Module SampleSite.

Definition book : meta := {|
  app_label := "library";
  object_name := "BookCopy";
  verbose_name := "book copy";
  verbose_name_plural := "book copies"
|}.

Definition settings : Bread.config := {|
  Bread.cfg_model := {| Bread._meta := Some book;
                        Bread.is_Model_subclass := true |};
  Bread.cfg_plural_name := None;
  Bread.cfg_views := "bRd";
  Bread.cfg_namespace := "shelf";
  Bread.cfg_base_template := "base.html";
  Bread.cfg_template_name_pattern := None;
  Bread.cfg_form_class := None;
  Bread.cfg_exclude := Some ["isbn"];
  Bread.cfg_browse_view := BrowseView;
  Bread.cfg_read_view := ReadView;
  Bread.cfg_edit_view := EditView;
  Bread.cfg_add_view := AddView;
  Bread.cfg_delete_view := DeleteView;
  Bread.has_paginate_by := false;
  Bread.has_columns := false;
  Bread.has_filter := false;
  Bread.has_filterset := false
|}.

Definition accept (m : meta) (column : string) : option exn := None.

(** What [Bread.__init__] makes of [settings]. *)
Definition books : Bread.t := {|
  Bread.model := book;
  Bread.name := "bookcopy";
  Bread.plural_name := "bookcopys";
  Bread.views := "BRD";
  Bread.namespace := "shelf";
  Bread.base_template := "base.html";
  Bread.template_name_pattern := None;
  Bread.form_class := None;
  Bread.exclude := Some ["isbn"];
  Bread.browse_view := BrowseView;
  Bread.read_view := ReadView;
  Bread.edit_view := EditView;
  Bread.add_view := AddView;
  Bread.delete_view := DeleteView
|}.

(** The same object with the letters of [views] in another order,
    repeated and mixed with others. *)
Definition shuffled : Bread.t := {|
  Bread.model := book;
  Bread.name := "bookcopy";
  Bread.plural_name := "bookcopys";
  Bread.views := "DxRBB";
  Bread.namespace := "";
  Bread.base_template := "base.html";
  Bread.template_name_pattern := Some "";
  Bread.form_class := Some "BookForm";
  Bread.exclude := None;
  Bread.browse_view := BrowseView;
  Bread.read_view := LabelValueReadView;
  Bread.edit_view := EditView;
  Bread.add_view := AddView;
  Bread.delete_view := DeleteView
|}.

(** A librarian may browse and read, and nothing else. *)
Definition librarian : User := {|
  is_authenticated := true;
  has_perm := fun perm =>
    bool_decide (perm = "library.browse_bookcopy") ||
    bool_decide (perm = "library.read_bookcopy")
|}.

Definition page_two : HttpRequest := {|
  user := librarian;
  path := "/books/";
  get_full_path := "/books/?page=2&q=ada";
  GET := {[ "page" := QList ["2"]; "q" := QList ["ada"] ]}
|}.

Definition page_one : HttpRequest := {|
  user := librarian;
  path := "/books/";
  get_full_path := "/books/?q=ada";
  GET := {[ "q" := QList ["ada"] ]}
|}.

Definition view_of (c : view_class) (r : HttpRequest) : BreadViewMixin.t := {|
  BreadViewMixin.bread := books;
  BreadViewMixin.model := book;
  BreadViewMixin.class := c;
  BreadViewMixin.form_class := None;
  BreadViewMixin.exclude := Some [];
  BreadViewMixin.request := r
|}.

(** A stand-in for [urlencode]: the number of parameters and the page. *)
Definition urlencode (d : gmap string qvalue) : string :=
  pretty (size d) +:+ "@" +:+
  match d !! "page" with
  | Some (QInt z) => pretty z
  | _ => "-"
  end.

(** Page 2 of 5. *)
Definition second : page := {|
  has_next := true; next_page_number := 3;
  has_previous := true; previous_page_number := 1
|}.

Definition listing : gmap string cell :=
  {[ "is_paginated" := Cell (Entry (VBool true));
     "page_obj" := PageObj second;
     "paginator" := Paginator 5 ]}.

End SampleSite.

(** * Properties *)

(** ** Running the monad *)

Section Run.

Context {world : Type}.

Lemma run_ret {A} (a : A) (w : world) : ret a w = (Ok a, w).
Proof. reflexivity. Qed.

Lemma run_bind_ok {A B} (m : M world A) (k : A -> M world B) w a w' :
  m w = (Ok a, w') -> (x <- m ;; k x) w = k a w'.
Proof. intros Hm. unfold bind. now rewrite Hm. Qed.

Lemma run_bind_raise {A B} (m : M world A) (k : A -> M world B) w e w' :
  m w = (Raise e, w') -> (x <- m ;; k x) w = (Raise e, w').
Proof. intros Hm. unfold bind. now rewrite Hm. Qed.

Lemma hasattr_member (o : model_instance world) name attr :
  members o !! name = Some attr -> hasattr o name = true.
Proof.
  intros Hm. unfold hasattr. rewrite Hm. apply bool_decide_eq_true_2. eauto.
Qed.

Lemma hasattr_no_member (o : model_instance world) name :
  members o !! name = None -> hasattr o name = false.
Proof.
  intros Hm. unfold hasattr. rewrite Hm.
  apply bool_decide_eq_false_2. intros [? ?]. discriminate.
Qed.

Lemma getattr_member (o : model_instance world) name attr w :
  members o !! name = Some attr -> getattr o name w = (Ok attr, w).
Proof. intros Hm. unfold getattr. now rewrite Hm. Qed.

(** *** The four branches of [get_field_label_value] *)

Lemma resolve_plain (o : model_instance world) label e name v ctx w :
  isinstance_str e = Some name ->
  members o !! name = Some (Plain v) ->
  get_field_label_value o label e ctx w
  = (l <- derive_label o label name ;; ret (l, v)) w.
Proof.
  intros He Hm. unfold get_field_label_value. rewrite He.
  rewrite (hasattr_member _ _ _ Hm).
  rewrite (run_bind_ok _ _ _ _ _ (getattr_member _ _ _ w Hm)).
  reflexivity.
Qed.

Lemma resolve_method (o : model_instance world) label e name call ctx w :
  isinstance_str e = Some name ->
  members o !! name = Some (Method call) ->
  get_field_label_value o label e ctx w
  = (v <- call ;; l <- derive_label o label name ;; ret (l, v)) w.
Proof.
  intros He Hm. unfold get_field_label_value. rewrite He.
  rewrite (hasattr_member _ _ _ Hm).
  rewrite (run_bind_ok _ _ _ _ _ (getattr_member _ _ _ w Hm)).
  reflexivity.
Qed.

Lemma resolve_literal (o : model_instance world) label e name ctx w :
  isinstance_str e = Some name ->
  members o !! name = None ->
  get_field_label_value o label e ctx w = (Ok (label, VStr name), w).
Proof.
  intros He Hm. unfold get_field_label_value. rewrite He.
  now rewrite (hasattr_no_member _ _ Hm).
Qed.

Lemma resolve_function (o : model_instance world) label e f ctx w :
  isinstance_str e = None ->
  callable e = Some f ->
  get_field_label_value o label e ctx w
  = (v <- f ctx ;; ret (label, v)) w.
Proof.
  intros He Hc. unfold get_field_label_value. now rewrite He, Hc.
Qed.

Lemma resolve_function_run (o : model_instance world) label e f ctx w :
  isinstance_str e = None ->
  callable e = Some f ->
  get_field_label_value o label e ctx w
  = match f ctx w with
    | (Ok v, w') => (Ok (label, v), w')
    | (Raise x, w') => (Raise x, w')
    end.
Proof.
  intros He Hc. rewrite (resolve_function _ _ _ _ _ _ He Hc).
  unfold bind. now destruct (f ctx w) as [[v|x] w'].
Qed.

Lemma resolve_other (o : model_instance world) label e ctx w :
  isinstance_str e = None ->
  callable e = None ->
  get_field_label_value o label e ctx w
  = (Ok (label, VStr (str_evaluator e)), w).
Proof.
  intros He Hc. unfold get_field_label_value. now rewrite He, Hc.
Qed.

End Run.

(** ** List comprehensions *)

Section Comprehension.

Context {world : Type} {A B : Type} (f : A -> M world B).

Lemma comprehension_cons x l w :
  comprehension f (x :: l) w
  = match f x w with
    | (Ok y, w1) =>
        match comprehension f l w1 with
        | (Ok ys, w2) => (Ok (y :: ys), w2)
        | (Raise e, w2) => (Raise e, w2)
        end
    | (Raise e, w1) => (Raise e, w1)
    end.
Proof.
  simpl. unfold bind, ret. destruct (f x w) as [[y|e] w1]; [|reflexivity].
  now destruct (comprehension f l w1) as [[ys|e] w2].
Qed.

(** The comprehension either returns one result per element, the
    [i]-th being that of the [i]-th element run after the first [i], or
    stops at the first element whose computation raises. *)
Lemma comprehension_outcome l w :
  match comprehension f l w with
  | (Ok ys, w') =>
      length ys = length l /\
      forall i x, l !! i = Some x ->
        exists y wi wi',
          ys !! i = Some y /\
          comprehension f (take i l) w = (Ok (take i ys), wi) /\
          f x wi = (Ok y, wi')
  | (Raise e, w') =>
      exists i x ys wi,
        l !! i = Some x /\
        comprehension f (take i l) w = (Ok ys, wi) /\
        f x wi = (Raise e, w')
  end.
Proof.
  revert w. induction l as [|x l IH]; intros w.
  - simpl. split; [reflexivity|]. intros i x Hi. discriminate.
  - rewrite comprehension_cons. destruct (f x w) as [[y|e] w1] eqn:Hx.
    + specialize (IH w1).
      destruct (comprehension f l w1) as [[ys|e] w2] eqn:Hl.
      * destruct IH as [Hlen Hnth]. split; [simpl; now rewrite Hlen|].
        intros [|i] x' Hi; simpl in Hi.
        -- injection Hi as <-. exists y, w, w1. now rewrite !take_0.
        -- destruct (Hnth i x' Hi) as (y' & wi & wi' & Hy & Hpre & Hf).
           exists y', wi, wi'. split; [assumption|]. split; [|assumption].
           simpl take. rewrite comprehension_cons, Hx, Hpre. reflexivity.
      * destruct IH as (i & x' & ys & wi & Hi & Hpre & Hf).
        exists (S i), x', (y :: ys), wi. split; [assumption|].
        split; [|assumption].
        simpl take. rewrite comprehension_cons, Hx, Hpre. reflexivity.
    + exists 0, x, [], w. now rewrite take_0.
Qed.

(** When no computation changes the state, neither does the
    comprehension. *)
Lemma comprehension_state l :
  (forall x w, x ∈ l -> (f x w).2 = w) ->
  forall w, (comprehension f l w).2 = w.
Proof.
  induction l as [|x l IH]; intros Hpure w; [reflexivity|].
  rewrite comprehension_cons.
  pose proof (Hpure x w (list_elem_of_here _ _)) as Hx.
  destruct (f x w) as [[y|e] w1]; simpl in Hx; subst w1; [|reflexivity].
  assert (Hl : (comprehension f l w).2 = w).
  { apply IH. intros x' w' Hin. apply Hpure. now apply list_elem_of_further. }
  now destruct (comprehension f l w) as [[ys|e] w2].
Qed.

End Comprehension.

(** ** The resolver *)

Section Properties.

Context {world : Type}.

Implicit Types (o : model_instance world) (e : evaluator world).
Implicit Types (label : value) (ctx : context) (w : world).

Lemma get_context_data_run o fields ctx w :
  get_context_data o fields ctx w
  = match comprehension
            (fun '(label, e) => get_field_label_value o label e ctx)
            fields w with
    | (Ok out, w') => (Ok (<["read_fields" := ReadFields out]> ctx), w')
    | (Raise x, w') => (Raise x, w')
    end.
Proof. reflexivity. Qed.

(** C1.  [get_context_data] stores under ['read_fields'] one pair per
    field specification, in the order of declaration: the list has the
    length of [fields], and its [i]-th pair is what
    [get_field_label_value] returns for the [i]-th specification, run
    after the first [i] specifications.  The only other outcome is the
    exception of the first specification whose resolution raises. *)
Theorem read_fields_in_declaration_order o fields ctx w :
  match get_context_data o fields ctx w with
  | (Ok ctx', w') =>
      exists out,
        ctx' = <["read_fields" := ReadFields out]> ctx /\
        length out = length fields /\
        forall i label e, fields !! i = Some (label, e) ->
          exists r wi wi',
            out !! i = Some r /\
            get_context_data o (take i fields) ctx w
            = (Ok (<["read_fields" := ReadFields (take i out)]> ctx), wi) /\
            get_field_label_value o label e ctx wi = (Ok r, wi')
  | (Raise x, w') =>
      exists i label e out wi,
        fields !! i = Some (label, e) /\
        get_context_data o (take i fields) ctx w
        = (Ok (<["read_fields" := ReadFields out]> ctx), wi) /\
        get_field_label_value o label e ctx wi = (Raise x, w')
  end.
Proof.
  rewrite get_context_data_run.
  pose proof (comprehension_outcome
    (fun '(label, e) => get_field_label_value o label e ctx) fields w) as H.
  destruct (comprehension _ fields w) as [[out|x] w'].
  - destruct H as [Hlen Hnth]. exists out. do 2 (split; [easy|]).
    intros i label e Hi.
    destruct (Hnth i _ Hi) as (r & wi & wi' & Hr & Hpre & Hf).
    exists r, wi, wi'. split; [assumption|]. split; [|assumption].
    now rewrite get_context_data_run, Hpre.
  - destruct H as (i & [label e] & out & wi & Hi & Hpre & Hf).
    exists i, label, e, out, wi. split; [assumption|]. split; [|assumption].
    now rewrite get_context_data_run, Hpre.
Qed.

(** *** Mode selection *)

Lemma priority_inj m m' : priority m = priority m' -> m = m'.
Proof. destruct m, m'; simpl; intros; congruence || lia. Qed.

Lemma applies_unique o e m m' : applies o e m -> applies o e m' -> m' = m.
Proof.
  intros [Hm Hlow] [Hm' Hlow']. apply priority_inj.
  destruct (Nat.lt_trichotomy (priority m') (priority m)) as [Hlt|[Heq|Hgt]].
  - rewrite (Hlow _ Hlt) in Hm'. discriminate.
  - assumption.
  - rewrite (Hlow' _ Hgt) in Hm. discriminate.
Qed.

Lemma selected_first o e :
  selected o e
  = if matches o e Mode1 then Mode1
    else if matches o e Mode2 then Mode2
    else if matches o e Mode3 then Mode3
    else if matches o e Mode4 then Mode4
    else Mode5.
Proof.
  unfold selected, List.find.
  repeat match goal with |- context [matches o e ?m] =>
    destruct (matches o e m); try reflexivity end.
Qed.

Lemma applies_selected o e : applies o e (selected o e).
Proof.
  unfold applies. rewrite selected_first.
  destruct (matches o e Mode1) eqn:H1;
    [|destruct (matches o e Mode2) eqn:H2;
      [|destruct (matches o e Mode3) eqn:H3;
        [|destruct (matches o e Mode4) eqn:H4]]];
    (split; [easy|]); intros m' Hlt; destruct m'; simpl in Hlt;
    solve [assumption | lia].
Qed.

Lemma matches_string o e name :
  isinstance_str e = Some name -> matches o e Mode3 = true.
Proof. intros He. simpl. rewrite He. apply bool_decide_eq_true_2. eauto. Qed.

(** C2.  Exactly one mode applies to an evaluator: the first, in the
    order 1 to 5, whose condition holds; [get_field_label_value]
    computes what that mode prescribes; and for a string evaluator this
    mode is 1, 2 or 3, also when the string is callable: a callable
    string is resolved as the plain string is. *)
Theorem mode_selection o label e ctx :
  (exists m,
     applies o e m /\
     (forall m', applies o e m' -> m' = m) /\
     m = selected o e /\
     exists r, resolves_in o label ctx e m r /\
               forall w, get_field_label_value o label e ctx w = r w) /\
  (forall m, is_Some (isinstance_str e) -> applies o e m ->
             m = Mode1 \/ m = Mode2 \/ m = Mode3) /\
  (forall s f w,
     get_field_label_value o label (CallableStr s f) ctx w
     = get_field_label_value o label (Str s) ctx w).
Proof.
  split; [|split; [|reflexivity]].
  - exists (selected o e). split; [apply applies_selected|].
    split; [intros m' Hm'; exact (applies_unique _ _ _ _ (applies_selected o e) Hm')|].
    split; [reflexivity|].
    destruct (isinstance_str e) as [name|] eqn:He.
    + destruct (members o !! name) as [[v|call]|] eqn:Hm.
      * replace (selected o e) with Mode1
          by (unfold selected; simpl; now rewrite He, Hm).
        eexists. split; [now apply (instance_attribute _ _ _ _ name v)|].
        intros w. now apply resolve_plain.
      * replace (selected o e) with Mode2
          by (unfold selected; simpl; now rewrite He, Hm).
        eexists. split; [now apply (instance_method _ _ _ _ name call)|].
        intros w. now apply resolve_method.
      * replace (selected o e) with Mode3
          by (unfold selected; simpl; now rewrite He, Hm).
        eexists. split; [now apply (literal_string _ _ _ _ name)|].
        intros w. now apply resolve_literal.
    + destruct (callable e) as [f|] eqn:Hc.
      * replace (selected o e) with Mode4
          by (unfold selected; simpl; now rewrite He, Hc).
        eexists. split; [now apply (context_aware_callable _ _ _ _ f)|].
        intros w. now apply resolve_function.
      * replace (selected o e) with Mode5
          by (unfold selected; simpl; now rewrite He, Hc).
        eexists. split; [apply opaque_literal|].
        intros w. now apply resolve_other.
  - intros m [name He] [Hm Hlow].
    pose proof (matches_string o e name He) as H3.
    destruct m; auto; rewrite (Hlow Mode3) in H3 by (simpl; lia);
      discriminate.
Qed.

(** *** Members of the object: modes 1 and 2 *)

Lemma derive_label_run o label name w :
  derive_label o label name w
  = (if is_None label
     then match verbose_names o !! name with
          | Some verbose => Ok (VStr verbose)
          | None => Raise ConfigurationError
          end
     else Ok label, w).
Proof.
  unfold derive_label, get_verbose_name.
  destruct (is_None label); [|reflexivity].
  now destruct (verbose_names o !! name).
Qed.

(** C3.  For a string that names a member, callability of the member
    alone decides: a callable member is invoked without argument and
    its result is the value (mode 2), any other member is the value
    itself and nothing is invoked (mode 1).  The name plays no part:
    another name bound to the same member, with the same metadata,
    resolves alike. *)
Theorem callability_decides_mode o label e name attr ctx w :
  isinstance_str e = Some name ->
  members o !! name = Some attr ->
  (callable_attr attr = true ->
   exists call, attr = Method call /\
     get_field_label_value o label e ctx w
     = match call w with
       | (Ok v, w1) => (l <- derive_label o label name ;; ret (l, v)) w1
       | (Raise x, w1) => (Raise x, w1)
       end) /\
  (callable_attr attr = false ->
   exists v, attr = Plain v /\
     get_field_label_value o label e ctx w
     = (l <- derive_label o label name ;; ret (l, v)) w) /\
  (forall name',
     members o !! name' = Some attr ->
     verbose_names o !! name' = verbose_names o !! name ->
     get_field_label_value o label (Str name') ctx w
     = get_field_label_value o label e ctx w).
Proof.
  intros He Hm. repeat split.
  - intros Hc. destruct attr as [v|call]; [discriminate|].
    exists call. split; [reflexivity|].
    rewrite (resolve_method _ _ _ _ _ _ _ He Hm). unfold bind at 1.
    now destruct (call w) as [[v|x] w1].
  - intros Hc. destruct attr as [v|call]; [|discriminate].
    exists v. split; [reflexivity|]. now apply resolve_plain.
  - intros name' Hm' Hv. destruct attr as [v|call].
    + rewrite (resolve_plain _ _ _ _ _ _ _ He Hm).
      rewrite (resolve_plain o label (Str name') name' v ctx w eq_refl Hm').
      unfold bind. now rewrite !derive_label_run, Hv.
    + rewrite (resolve_method _ _ _ _ _ _ _ He Hm).
      rewrite (resolve_method o label (Str name') name' call ctx w eq_refl Hm').
      unfold bind. destruct (call w) as [[v|x] w1]; [|reflexivity].
      now rewrite !derive_label_run, Hv.
Qed.

(** C4, as the code has it.  The specification [(None, 'missing_field')]
    for an object without a member of that name is resolved in mode 3:
    the pair [(None, 'missing_field')] is returned and nothing is
    raised, whatever the field metadata holds. *)
Theorem missing_field_is_literal o ctx w :
  members o !! "missing_field" = None ->
  get_field_label_value o VNone (Str "missing_field") ctx w
  = (Ok (VNone, VStr "missing_field"), w).
Proof. intros Hm. now apply resolve_literal. Qed.

(** C5, as the code has it.  With an absent label and a string that
    names a member whose value is obtained (a plain attribute, or a
    method whose call returns), the label is the verbose name the
    metadata records under that name, and [ConfigurationError] is
    raised when it records none. *)
Theorem absent_label_from_metadata o e name attr ctx w v w1 :
  isinstance_str e = Some name ->
  members o !! name = Some attr ->
  member_yields attr w v w1 ->
  get_field_label_value o VNone e ctx w
  = match verbose_names o !! name with
    | Some verbose => (Ok (VStr verbose, v), w1)
    | None => (Raise ConfigurationError, w1)
    end.
Proof.
  intros He Hm Hv. destruct attr as [v0|call]; simpl in Hv.
  - destruct Hv as [-> ->]. rewrite (resolve_plain _ _ _ _ _ _ _ He Hm).
    unfold bind. rewrite derive_label_run. simpl.
    now destruct (verbose_names o !! name).
  - rewrite (resolve_method _ _ _ _ _ _ _ He Hm).
    unfold bind. rewrite Hv, derive_label_run. simpl.
    now destruct (verbose_names o !! name).
Qed.

(** *** Modes 3 and 4 *)

(** C6.  A string that names no member of the object is passed through:
    the pair is the label given and the string itself. *)
Theorem literal_string_passthrough o label e name ctx w :
  isinstance_str e = Some name ->
  members o !! name = None ->
  get_field_label_value o label e ctx w = (Ok (label, VStr name), w).
Proof. apply resolve_literal. Qed.

(** C7.  An evaluator that is no string and is callable is invoked with
    the context dict as its single argument; its result is the value
    and the label given is the label. *)
Theorem context_callable_invoked o label e f ctx w :
  isinstance_str e = None ->
  callable e = Some f ->
  get_field_label_value o label e ctx w
  = match f ctx w with
    | (Ok v, w') => (Ok (label, v), w')
    | (Raise x, w') => (Raise x, w')
    end.
Proof. apply resolve_function_run. Qed.

(** *** Exceptions of the invoked code *)

Lemma comprehension_app {A B} (f : A -> M world B) l1 l2 w :
  comprehension f (l1 ++ l2) w
  = match comprehension f l1 w with
    | (Ok ys1, w1) =>
        match comprehension f l2 w1 with
        | (Ok ys2, w2) => (Ok (ys1 ++ ys2), w2)
        | (Raise x, w2) => (Raise x, w2)
        end
    | (Raise x, w1) => (Raise x, w1)
    end.
Proof.
  revert w. induction l1 as [|a l1 IH]; intros w.
  - simpl. unfold ret. now destruct (comprehension f l2 w) as [[ys|x] w2].
  - rewrite <- app_comm_cons, !comprehension_cons.
    destruct (f a w) as [[y|x] w1]; [|reflexivity].
    rewrite IH. destruct (comprehension f l1 w1) as [[ys1|x] w2]; [|reflexivity].
    now destruct (comprehension f l2 w2) as [[ys2|x] w3].
Qed.

(** C8.  When the invocation a specification asks for (the method of
    mode 2, the callable of mode 4) raises, [get_field_label_value]
    raises that very exception in the state the single invocation left,
    whatever the label; and [get_context_data] raises it too once the
    specifications before it are resolved. *)
Theorem invocation_error_propagates o label e ctx w x w' :
  invocation_raises o e ctx w x w' ->
  get_field_label_value o label e ctx w = (Raise x, w') /\
  forall before after w0 ctx0,
    get_context_data o before ctx w0 = (Ok ctx0, w) ->
    get_context_data o (before ++ (label, e) :: after) ctx w0
    = (Raise x, w').
Proof.
  intros Hraise.
  assert (Hone : get_field_label_value o label e ctx w = (Raise x, w')).
  { unfold invocation_raises in Hraise.
    destruct (isinstance_str e) as [name|] eqn:He.
    - destruct Hraise as (call & Hm & Hcall).
      rewrite (resolve_method _ _ _ _ _ _ _ He Hm).
      now apply run_bind_raise.
    - destruct Hraise as (f & Hc & Hf).
      rewrite (resolve_function _ _ _ _ _ _ He Hc).
      now apply run_bind_raise. }
  split; [assumption|].
  intros before after w0 ctx0. rewrite !get_context_data_run.
  rewrite comprehension_app.
  destruct (comprehension _ before w0) as [[out|x0] w1]; [|discriminate].
  intros [= _ ->]. now rewrite comprehension_cons, Hone.
Qed.

(** *** Purity *)

Lemma get_field_label_value_state o label e ctx :
  (forall name call w,
     members o !! name = Some (Method call) -> (call w).2 = w) ->
  (forall f w, callable e = Some f -> (f ctx w).2 = w) ->
  forall w, (get_field_label_value o label e ctx w).2 = w.
Proof.
  intros Hmeth Hfun w.
  destruct (isinstance_str e) as [name|] eqn:He.
  - destruct (members o !! name) as [[v|call]|] eqn:Hm.
    + rewrite (resolve_plain _ _ _ _ _ _ _ He Hm).
      unfold bind. rewrite derive_label_run.
      now destruct (if is_None label then _ else _).
    + rewrite (resolve_method _ _ _ _ _ _ _ He Hm).
      unfold bind. pose proof (Hmeth name call w Hm) as Hw.
      destruct (call w) as [[v|x] w1]; simpl in Hw; subst w1; [|reflexivity].
      rewrite derive_label_run.
      now destruct (if is_None label then _ else _).
    + now rewrite (resolve_literal _ _ _ _ _ _ He Hm).
  - destruct (callable e) as [f|] eqn:Hc.
    + rewrite (resolve_function _ _ _ _ _ _ He Hc).
      unfold bind. pose proof (Hfun f w eq_refl) as Hw.
      now destruct (f ctx w) as [[v|x] w1]; simpl in Hw; subst w1.
    + now rewrite (resolve_other _ _ _ _ _ He Hc).
Qed.

(** C9.  When the methods of the object and the callable evaluators
    have no effect on the state, a resolution leaves the state as it
    found it, and resolving the same list again, after the first
    resolution, gives the same outcome. *)
Theorem resolution_idempotent o fields ctx w :
  side_effect_free o fields ctx ->
  (get_context_data o fields ctx w).2 = w /\
  get_context_data o fields ctx (get_context_data o fields ctx w).2
  = get_context_data o fields ctx w.
Proof.
  intros [Hmeth Hfun].
  assert (Hstate : (get_context_data o fields ctx w).2 = w).
  { rewrite get_context_data_run.
    pose proof (comprehension_state
      (fun '(label, e) => get_field_label_value o label e ctx) fields) as H.
    specialize (H (fun '(label, e) w0 Hin =>
      get_field_label_value_state o label e ctx Hmeth
        (fun f w1 Hc => Hfun label e f w1 Hin Hc) w0) w).
    now destruct (comprehension _ fields w) as [[out|x] w1]. }
  split; [assumption|]. now rewrite Hstate.
Qed.

(** *** Labels *)

(** The outcomes of [get_field_label_value], branch by branch. *)
Lemma get_field_label_value_cases o label e ctx w :
  (exists name v, isinstance_str e = Some name /\
     members o !! name = Some (Plain v) /\
     get_field_label_value o label e ctx w
     = match (derive_label o label name w).1 with
       | Ok l => (Ok (l, v), w)
       | Raise x => (Raise x, w)
       end) \/
  (exists name call, isinstance_str e = Some name /\
     members o !! name = Some (Method call) /\
     get_field_label_value o label e ctx w
     = match call w with
       | (Ok v, w1) =>
           match (derive_label o label name w1).1 with
           | Ok l => (Ok (l, v), w1)
           | Raise x => (Raise x, w1)
           end
       | (Raise x, w1) => (Raise x, w1)
       end) \/
  (exists name, isinstance_str e = Some name /\
     members o !! name = None /\
     get_field_label_value o label e ctx w = (Ok (label, VStr name), w)) \/
  (exists f, isinstance_str e = None /\ callable e = Some f /\
     get_field_label_value o label e ctx w
     = match f ctx w with
       | (Ok v, w1) => (Ok (label, v), w1)
       | (Raise x, w1) => (Raise x, w1)
       end) \/
  (isinstance_str e = None /\ callable e = None /\
     get_field_label_value o label e ctx w
     = (Ok (label, VStr (str_evaluator e)), w)).
Proof.
  destruct (isinstance_str e) as [name|] eqn:He.
  - destruct (members o !! name) as [[v|call]|] eqn:Hm.
    + left. exists name, v. do 2 (split; [easy|]).
      rewrite (resolve_plain _ _ _ _ _ _ _ He Hm). unfold bind.
      rewrite derive_label_run. simpl.
      now destruct (if is_None label then _ else _).
    + right; left. exists name, call. do 2 (split; [easy|]).
      rewrite (resolve_method _ _ _ _ _ _ _ He Hm). unfold bind.
      destruct (call w) as [[v|x] w1]; [|reflexivity].
      rewrite derive_label_run. simpl.
      now destruct (if is_None label then _ else _).
    + do 2 right; left. exists name. do 2 (split; [easy|]).
      now apply resolve_literal.
  - destruct (callable e) as [f|] eqn:Hc.
    + do 3 right; left. exists f. do 2 (split; [easy|]).
      now apply resolve_function_run.
    + do 4 right. do 2 (split; [easy|]). now apply resolve_other.
Qed.

Lemma derive_label_explicit o label name w :
  is_None label = false -> (derive_label o label name w).1 = Ok label.
Proof. intros Hl. now rewrite derive_label_run, Hl. Qed.

Lemma explicit_label_kept o label e ctx w r w' :
  is_None label = false ->
  get_field_label_value o label e ctx w = (Ok r, w') -> r.1 = label.
Proof.
  intros Hl.
  destruct (get_field_label_value_cases o label e ctx w)
    as [(name & v & _ & _ & ->)|[(name & call & _ & _ & ->)
       |[(name & _ & _ & ->)|[(f & _ & _ & ->)|(_ & _ & ->)]]]].
  - rewrite derive_label_explicit by assumption. now intros [= <- _].
  - destruct (call w) as [[v|x] w1]; [|discriminate].
    rewrite derive_label_explicit by assumption. now intros [= <- _].
  - now intros [= <- _].
  - destruct (f ctx w) as [[v|x] w1]; [|discriminate]. now intros [= <- _].
  - now intros [= <- _].
Qed.

Lemma explicit_label_raise o label e ctx w x w' :
  is_None label = false ->
  get_field_label_value o label e ctx w = (Raise x, w') ->
  invocation_raises o e ctx w x w'.
Proof.
  intros Hl. unfold invocation_raises.
  destruct (get_field_label_value_cases o label e ctx w)
    as [(name & v & -> & _ & ->)|[(name & call & -> & Hm & ->)
       |[(name & -> & _ & ->)|[(f & -> & Hc & ->)|(-> & _ & ->)]]]].
  - rewrite derive_label_explicit by assumption. discriminate.
  - intros Hr. exists call. split; [assumption|].
    destruct (call w) as [[v|x1] w1]; [|congruence].
    rewrite derive_label_explicit in Hr by assumption. discriminate.
  - discriminate.
  - intros Hr. exists f. split; [assumption|].
    destruct (f ctx w) as [[v|x1] w1]; [discriminate|congruence].
  - discriminate.
Qed.

Lemma label_replaced_only_for_member o label e ctx w r w' :
  get_field_label_value o label e ctx w = (Ok r, w') ->
  r.1 <> label ->
  label = VNone /\
  exists name, isinstance_str e = Some name /\ is_Some (members o !! name).
Proof.
  intros Hr Hne. split.
  - destruct label; [reflexivity|exfalso; apply Hne..];
      now apply (explicit_label_kept o _ e ctx w r w').
  - destruct (get_field_label_value_cases o label e ctx w)
      as [(name & v & He & Hm & _)|[(name & call & He & Hm & _)
         |[(name & _ & _ & Heq)|[(f & _ & _ & Heq)|(_ & _ & Heq)]]]].
    + exists name. rewrite Hm. eauto.
    + exists name. rewrite Hm. eauto.
    + exfalso. apply Hne. rewrite Heq in Hr. now injection Hr as <- _.
    + exfalso. apply Hne. rewrite Heq in Hr.
      destruct (f ctx w) as [[v|x] w1]; [|discriminate].
      now injection Hr as <- _.
    + exfalso. apply Hne. rewrite Heq in Hr. now injection Hr as <- _.
Qed.

Lemma metadata_not_consulted o o' label e ctx w :
  members o' = members o ->
  (forall name, isinstance_str e = Some name -> members o !! name = None) ->
  get_field_label_value o' label e ctx w
  = get_field_label_value o label e ctx w.
Proof.
  intros Hsame Hnone. destruct (isinstance_str e) as [name|] eqn:He.
  - specialize (Hnone name eq_refl).
    rewrite (resolve_literal o _ _ _ _ _ He Hnone).
    apply resolve_literal; [assumption|]. now rewrite Hsame.
  - destruct (callable e) as [f|] eqn:Hc.
    + now rewrite !(resolve_function _ _ _ _ _ _ He Hc).
    + now rewrite !(resolve_other _ _ _ _ _ He Hc).
Qed.

(** C10.  A label other than [None] is the label of the pair returned,
    and no exception is raised on its account; the label returned
    differs from the one given only for [None] with a string that names
    a member; and in modes 3, 4 and 5 the label [None] is returned as
    it is, nothing is raised for it, and the field metadata plays no
    part. *)
Theorem label_passthrough o label e ctx w :
  (is_None label = false ->
   (forall r w', get_field_label_value o label e ctx w = (Ok r, w') ->
                 r.1 = label) /\
   (forall x w', get_field_label_value o label e ctx w = (Raise x, w') ->
                 invocation_raises o e ctx w x w')) /\
  (forall r w', get_field_label_value o label e ctx w = (Ok r, w') ->
     r.1 <> label ->
     label = VNone /\
     exists name, isinstance_str e = Some name /\
                  is_Some (members o !! name)) /\
  (forall name, isinstance_str e = Some name -> members o !! name = None ->
     get_field_label_value o VNone e ctx w = (Ok (VNone, VStr name), w)) /\
  (forall f, isinstance_str e = None -> callable e = Some f ->
     get_field_label_value o VNone e ctx w
     = match f ctx w with
       | (Ok v, w') => (Ok (VNone, v), w')
       | (Raise x, w') => (Raise x, w')
       end) /\
  (isinstance_str e = None -> callable e = None ->
     get_field_label_value o VNone e ctx w
     = (Ok (VNone, VStr (str_evaluator e)), w)) /\
  (forall o', members o' = members o ->
     (forall name, isinstance_str e = Some name ->
                   members o !! name = None) ->
     get_field_label_value o' label e ctx w
     = get_field_label_value o label e ctx w).
Proof.
  split; [intros Hl; split|].
  - intros r w'. now apply explicit_label_kept.
  - intros x w'. now apply explicit_label_raise.
  - split; [intros r w'; apply label_replaced_only_for_member|].
    split; [intros name; apply resolve_literal|].
    split; [intros f; apply resolve_function_run|].
    split; [apply resolve_other|].
    intros o'. apply metadata_not_consulted.
Qed.

End Properties.

(** * The sample configuration *)

Import Sample.

(** The example of the class docstring, mode by mode. *)
Example docstring_fields :
  get_context_data person fields request 0
  = (Ok (<["read_fields" := ReadFields resolved]> request), 0).
Proof. reflexivity. Qed.

Example scenario_B :
  get_field_label_value person VNone (Str "full_name") request 0
  = (Ok (VStr "Full Name", VStr "Ada Lovelace"), 0).
Proof. reflexivity. Qed.

Example selected_modes :
  map (selected person)
      [Str "id"; Str "full_name"; Str "bar"; CallableStr "bar" failing;
       CallableStr "id" failing; Function failing; Other (VInt 42)]
  = [Mode1; Mode2; Mode3; Mode3; Mode1; Mode4; Mode5].
Proof. reflexivity. Qed.

(** A method with an effect: the second resolution differs. *)
Example effects_are_observed :
  get_field_label_value person (VStr "Visits") (Str "visits") request 0
  = (Ok (VStr "Visits", VInt 0), 1) /\
  get_field_label_value person (VStr "Visits") (Str "visits") request 1
  = (Ok (VStr "Visits", VInt 1), 2).
Proof. split; reflexivity. Qed.

Lemma quiet_side_effect_free : side_effect_free quiet fields request.
Proof.
  split.
  - intros name call w Hm. unfold quiet in Hm. simpl in Hm.
    rewrite !lookup_insert_Some, lookup_singleton_Some in Hm.
    destruct Hm as [[_ [=]]|[_ [[_ [=]]|[_ [_ [= <-]]]]]]. reflexivity.
  - intros label e f w Hin Hc. unfold fields in Hin.
    rewrite !elem_of_cons, elem_of_nil in Hin.
    destruct Hin as [[= -> ->]|[[= -> ->]|[[= -> ->]|[[= -> ->]|[[= -> ->]|[]]]]]];
      simpl in Hc; try discriminate.
    injection Hc as <-. unfold frob_all_the_things.
    now destruct (request !! "object").
Qed.

(** ** Instances of the theorems *)

Lemma callability_decides_mode_witness :
  (callable_attr (Method visits) = true ->
   exists call, @Method nat visits = Method call /\
     get_field_label_value person VNone (Str "visits") request 3
     = match call 3 with
       | (Ok v, w1) => (l <- derive_label person VNone "visits" ;; ret (l, v)) w1
       | (Raise x, w1) => (Raise x, w1)
       end) /\
  (callable_attr (Method visits) = false ->
   exists v, @Method nat visits = Plain v /\
     get_field_label_value person VNone (Str "visits") request 3
     = (l <- derive_label person VNone "visits" ;; ret (l, v)) 3) /\
  (forall name',
     members person !! name' = Some (Method visits) ->
     verbose_names person !! name' = verbose_names person !! "visits" ->
     get_field_label_value person VNone (Str name') request 3
     = get_field_label_value person VNone (Str "visits") request 3).
Proof.
  apply (callability_decides_mode person VNone (Str "visits") "visits"
           (Method visits) request 3); reflexivity.
Defined.

Lemma missing_field_is_literal_witness :
  get_field_label_value blank VNone (Str "missing_field") request 0
  = (Ok (VNone, VStr "missing_field"), 0).
Proof. apply (missing_field_is_literal blank request 0). reflexivity. Defined.

(** C4 as stated fails: no member, no metadata entry, and a pair is
    returned where [ConfigurationError] was claimed. *)
Lemma missing_field_not_raised :
  members blank !! "missing_field" = None /\
  verbose_names blank !! "missing_field" = None /\
  get_field_label_value blank VNone (Str "missing_field") request 0
  = (Ok (VNone, VStr "missing_field"), 0) /\
  forall w', get_field_label_value blank VNone (Str "missing_field") request 0
             <> (Raise ConfigurationError, w').
Proof. repeat split; discriminate. Qed.

Lemma absent_label_from_metadata_witness :
  get_field_label_value person VNone (Str "id") request 0
  = match verbose_names person !! "id" with
    | Some verbose => (Ok (VStr verbose, VInt 7), 0)
    | None => (Raise ConfigurationError, 0)
    end.
Proof.
  apply (absent_label_from_metadata person (Str "id") "id" (Plain (VInt 7))
           request 0 (VInt 7) 0); [reflexivity|reflexivity|].
  simpl. split; reflexivity.
Defined.

(** C5 as stated fails: the label is absent, the string names a member,
    the metadata has no entry for it, and the exception raised is the
    one of the method, which is called first. *)
Lemma raising_method_precedes_metadata :
  isinstance_str (Str "broken" : evaluator nat) = Some "broken" /\
  members person !! "broken" = Some (Method broken) /\
  verbose_names person !! "broken" = None /\
  get_field_label_value person VNone (Str "broken") request 0
  = (Raise (Exception "boom"), 1) /\
  forall w', get_field_label_value person VNone (Str "broken") request 0
             <> (Raise ConfigurationError, w').
Proof. repeat split; discriminate. Qed.

Lemma literal_string_passthrough_witness :
  get_field_label_value person (VStr "Foo") (Str "bar") request 0
  = (Ok (VStr "Foo", VStr "bar"), 0).
Proof.
  apply (literal_string_passthrough person (VStr "Foo") (Str "bar") "bar"
           request 0); reflexivity.
Defined.

Lemma context_callable_invoked_witness :
  get_field_label_value person (VStr "Stuff") (Function frob_all_the_things)
    request 0
  = match frob_all_the_things request 0 with
    | (Ok v, w') => (Ok (VStr "Stuff", v), w')
    | (Raise x, w') => (Raise x, w')
    end.
Proof.
  apply (context_callable_invoked person (VStr "Stuff")
           (Function frob_all_the_things) frob_all_the_things request 0);
    reflexivity.
Defined.

Lemma invocation_error_propagates_witness :
  get_field_label_value person VNone (Str "broken") request 1
  = (Raise (Exception "boom"), 2) /\
  forall before after w0 ctx0,
    get_context_data person before request w0 = (Ok ctx0, 1) ->
    get_context_data person (before ++ (VNone, Str "broken") :: after)
      request w0
    = (Raise (Exception "boom"), 2).
Proof.
  apply (invocation_error_propagates person VNone (Str "broken") request 1
           (Exception "boom") 2).
  exists broken. split; reflexivity.
Defined.

Lemma resolution_idempotent_witness :
  (get_context_data quiet fields request 0).2 = 0 /\
  get_context_data quiet fields request
    (get_context_data quiet fields request 0).2
  = get_context_data quiet fields request 0.
Proof.
  apply (resolution_idempotent quiet fields request 0).
  exact quiet_side_effect_free.
Defined.

(** * Names, URLs and permissions *)

(** ** Strings *)

Lemma lower_char_idem c : lower_char (lower_char c) = lower_char c.
Proof. destruct c as [[] [] [] [] [] [] [] []]; reflexivity. Qed.

Lemma upper_lower_char c : upper_char (lower_char c) = upper_char c.
Proof. destruct c as [[] [] [] [] [] [] [] []]; reflexivity. Qed.

Lemma str_lower_idem s : str_lower (str_lower s) = str_lower s.
Proof.
  induction s as [|c s IH]; [reflexivity|].
  simpl. now rewrite lower_char_idem, IH.
Qed.

Lemma str_upper_lower s : str_upper (str_lower s) = str_upper s.
Proof.
  induction s as [|c s IH]; [reflexivity|].
  simpl. now rewrite upper_lower_char, IH.
Qed.

Lemma append_length (s1 s2 : string) :
  String.length (s1 +:+ s2) = String.length s1 + String.length s2.
Proof.
  induction s1 as [|c s1 IH]; [reflexivity|].
  change (S (String.length (s1 +:+ s2))
          = S (String.length s1 + String.length s2)).
  now f_equal.
Qed.

(** Cancellation on the right. *)
Lemma append_inv_tail (s1 s2 t : string) : s1 +:+ t = s2 +:+ t -> s1 = s2.
Proof.
  revert s2. induction s1 as [|c s1 IH]; intros [|c2 s2] H; simpl in H.
  - reflexivity.
  - apply (f_equal String.length) in H.
    rewrite !append_length in H. simpl in H. lia.
  - apply (f_equal String.length) in H.
    rewrite !append_length in H. simpl in H. lia.
  - change (String c (s1 +:+ t) = String c2 (s2 +:+ t)) in H.
    injection H as -> H. f_equal. now apply IH.
Qed.


Lemma append_cons c (s t : string) : String c s +:+ t = String c (s +:+ t).
Proof. reflexivity. Qed.

(** ** URL names *)

Lemma get_url_name_qualified (b : Bread.t) (v : string) (incl : bool) :
  Bread.get_url_name b v incl
  = (if incl && truthy_str (Bread.namespace b)
     then Bread.namespace b +:+ ":" else "")
    +:+ Bread.get_url_name b v false.
Proof.
  unfold Bread.get_url_name.
  destruct incl, (truthy_str (Bread.namespace b)), (String.eqb v "browse");
    reflexivity.
Qed.

Lemma url_name_inj (b : Bread.t) (incl : bool) op op' :
  Bread.get_url_name b (view_name op) incl
  = Bread.get_url_name b (view_name op') incl ->
  op = op'.
Proof.
  rewrite (get_url_name_qualified b (view_name op)),
          (get_url_name_qualified b (view_name op')).
  intros H. apply (inj (String.append _)) in H. revert H.
  unfold Bread.get_url_name.
  destruct op, op'; simpl; rewrite ?append_cons;
    solve [reflexivity | discriminate].
Qed.

Lemma operation_names_NoDup (b : Bread.t) (incl : bool) :
  NoDup ((fun op => Bread.get_url_name b (view_name op) incl)
         <$> [Browse; Read; Edit; Add; Delete]).
Proof.
  apply NoDup_fmap_2_strong.
  - intros op op' _ _. apply url_name_inj.
  - repeat (apply NoDup_cons; split;
            [rewrite ?elem_of_cons, elem_of_nil; intuition discriminate|]).
    apply NoDup_nil_2.
Qed.

(** X1.  The URL names of the five operations are pairwise distinct,
    with the namespace and without, whatever the model name, the plural
    name and the namespace are. *)
Theorem url_names_distinct (b : Bread.t) (include_namespace : bool) :
  NoDup [ Bread.browse_url_name b include_namespace;
          Bread.read_url_name b include_namespace;
          Bread.edit_url_name b include_namespace;
          Bread.add_url_name b include_namespace;
          Bread.delete_url_name b include_namespace ].
Proof. exact (operation_names_NoDup b include_namespace). Qed.

Lemma get_urls_operations (b : Bread.t) (prefix : bool) :
  Bread.url_name <$> Bread.get_urls b prefix
  = (fun op => Bread.get_url_name b (view_name op) false)
    <$> filter (fun op => in_str (letter op) (Bread.views b) = true)
          [Browse; Read; Edit; Add; Delete].
Proof.
  unfold Bread.get_urls.
  rewrite !filter_cons, filter_nil. simpl letter.
  destruct (in_str "B" (Bread.views b)), (in_str "R" (Bread.views b)),
    (in_str "E" (Bread.views b)), (in_str "A" (Bread.views b)),
    (in_str "D" (Bread.views b)); reflexivity.
Qed.

(** X2.  [get_urls] never gives two patterns the same name, and every
    name is one of the five unqualified URL names, in the order browse,
    read, edit, add, delete. *)
Theorem get_urls_names_unique (b : Bread.t) (prefix : bool) :
  NoDup (Bread.url_name <$> Bread.get_urls b prefix) /\
  sublist (Bread.url_name <$> Bread.get_urls b prefix)
    [ Bread.browse_url_name b false; Bread.read_url_name b false;
      Bread.edit_url_name b false; Bread.add_url_name b false;
      Bread.delete_url_name b false ].
Proof.
  assert (Hsub : sublist (Bread.url_name <$> Bread.get_urls b prefix)
    ((fun op => Bread.get_url_name b (view_name op) false)
     <$> [Browse; Read; Edit; Add; Delete])).
  { rewrite get_urls_operations. apply fmap_sublist, sublist_filter. }
  split; [|exact Hsub].
  eapply sublist_NoDup; [apply operation_names_NoDup|exact Hsub].
Qed.

Lemma get_urls_registers_operation (b : Bread.t) (prefix : bool) op :
  Bread.get_url_name b (view_name op) false
    ∈ (Bread.url_name <$> Bread.get_urls b prefix)
  <-> in_str (letter op) (Bread.views b) = true.
Proof.
  rewrite get_urls_operations, list_elem_of_fmap. split.
  - intros (op' & Heq & Hin). apply url_name_inj in Heq as ->.
    now apply list_elem_of_filter in Hin as [Hin _].
  - intros Hin. exists op. split; [reflexivity|].
    apply list_elem_of_filter. split; [assumption|].
    destruct op; rewrite ?elem_of_cons; auto 6.
Qed.

(** X3.  [get_urls] registers the URL name of an operation exactly when
    the letter of the operation occurs in [views]. *)
Theorem get_urls_registers (b : Bread.t) (prefix : bool) (op : operation) :
  Bread.get_url_name b (view_name op) false
    ∈ (Bread.url_name <$> Bread.get_urls b prefix)
  <-> in_str (letter op) (Bread.views b) = true.
Proof. apply get_urls_registers_operation. Qed.

Lemma get_urls_regexes (b : Bread.t) (prefix : bool) :
  Bread.regex <$> Bread.get_urls b prefix
  = (fun op =>
       "^" +:+ (if prefix then Bread.plural_name b +:+ "/" else "") +:+
       match op with
       | Browse => "$"
       | Read => "(?P<pk>\d+)/$"
       | Edit => "(?P<pk>\d+)/edit/$"
       | Add => "add/$"
       | Delete => "(?P<pk>\d+)/delete/$"
       end)
    <$> filter (fun op => in_str (letter op) (Bread.views b) = true)
          [Browse; Read; Edit; Add; Delete].
Proof.
  unfold Bread.get_urls.
  rewrite !filter_cons, filter_nil. simpl letter.
  destruct (in_str "B" (Bread.views b)), (in_str "R" (Bread.views b)),
    (in_str "E" (Bread.views b)), (in_str "A" (Bread.views b)),
    (in_str "D" (Bread.views b)); reflexivity.
Qed.

(** X4.  No two patterns of [get_urls] have the same regular
    expression, with the plural name as prefix and without. *)
Theorem get_urls_regexes_unique (b : Bread.t) (prefix : bool) :
  NoDup (Bread.regex <$> Bread.get_urls b prefix).
Proof.
  rewrite get_urls_regexes. apply NoDup_fmap_2_strong.
  - intros op op' _ _ H.
    apply (inj (String.append _)), (inj (String.append _)) in H.
    destruct op, op'; solve [reflexivity | discriminate].
  - apply NoDup_filter.
    repeat (apply NoDup_cons; split;
            [rewrite ?elem_of_cons, elem_of_nil; intuition discriminate|]).
    apply NoDup_nil_2.
Qed.

(** X5.  [get_urls] reads [views] only for the presence of the letters
    B, R, E, A and D: two objects with the same names whose [views]
    hold the same of these letters, in any order and number, give the
    same names and regular expressions in the same order. *)
Theorem get_urls_letters_only (b b' : Bread.t) (prefix : bool) :
  (forall op, in_str (letter op) (Bread.views b)
              = in_str (letter op) (Bread.views b')) ->
  Bread.name b = Bread.name b' ->
  Bread.plural_name b = Bread.plural_name b' ->
  (fun u => (Bread.regex u, Bread.url_name u)) <$> Bread.get_urls b prefix
  = (fun u => (Bread.regex u, Bread.url_name u)) <$> Bread.get_urls b' prefix.
Proof.
  intros Hletters Hname Hplural. unfold Bread.get_urls.
  pose proof (Hletters Browse) as HB. pose proof (Hletters Read) as HR.
  pose proof (Hletters Edit) as HE. pose proof (Hletters Add) as HA.
  pose proof (Hletters Delete) as HD. simpl letter in *.
  rewrite <- HB, <- HR, <- HE, <- HA, <- HD.
  unfold Bread.browse_url_name, Bread.read_url_name, Bread.edit_url_name,
    Bread.add_url_name, Bread.delete_url_name, Bread.get_url_name.
  rewrite <- Hname, <- Hplural.
  destruct (in_str "B" (Bread.views b)), (in_str "R" (Bread.views b)),
    (in_str "E" (Bread.views b)), (in_str "A" (Bread.views b)),
    (in_str "D" (Bread.views b)); reflexivity.
Qed.

(** X6.  The name [success_url] hands to [reverse_lazy] is the browse
    URL name, qualified by the namespace when there is one; [get_urls]
    registers that name only when [views] contains B. *)
Theorem success_url_target (self : BreadViewMixin.t) (prefix : bool) :
  BreadViewMixin.success_url self
  = (if truthy_str (Bread.namespace (BreadViewMixin.bread self))
     then Bread.namespace (BreadViewMixin.bread self) +:+ ":" else "")
    +:+ Bread.browse_url_name (BreadViewMixin.bread self) false /\
  (Bread.browse_url_name (BreadViewMixin.bread self) false
     ∈ (Bread.url_name <$>
        Bread.get_urls (BreadViewMixin.bread self) prefix)
   <-> in_str "B" (Bread.views (BreadViewMixin.bread self)) = true).
Proof.
  split.
  - unfold BreadViewMixin.success_url, Bread.browse_url_name.
    now rewrite get_url_name_qualified.
  - apply (get_urls_registers_operation _ prefix Browse).
Qed.

(** ** [Bread.__init__] *)

Lemma init_Ok_inv vf (c : Bread.config) (b : Bread.t) :
  Bread.__init__ vf c = Ok b ->
  exists m,
    Bread._meta (Bread.cfg_model c) = Some m /\
    Bread.is_Model_subclass (Bread.cfg_model c) = true /\
    Bread.validate_columns vf m (columns (Bread.cfg_browse_view c)) = None /\
    Bread.has_paginate_by c = false /\ Bread.has_columns c = false /\
    Bread.has_filter c = false /\ Bread.has_filterset c = false /\
    Bread.model b = m /\
    Bread.name b = str_lower (object_name m) /\
    Bread.views b = str_upper (Bread.cfg_views c).
Proof.
  unfold Bread.__init__.
  destruct (Bread._meta (Bread.cfg_model c)) as [m|] eqn:Hm; [|discriminate].
  destruct (Bread.is_Model_subclass (Bread.cfg_model c)) eqn:Hsub;
    [|discriminate].
  destruct (Bread.validate_columns vf m _) eqn:Hcols; [discriminate|].
  destruct (Bread.has_paginate_by c) eqn:Hp; [discriminate|].
  destruct (Bread.has_columns c) eqn:Hc; [discriminate|].
  destruct (Bread.has_filter c) eqn:Hf; [discriminate|].
  destruct (Bread.has_filterset c) eqn:Hfs; [discriminate|].
  simpl. intros [= <-]. exists m. repeat split; assumption || reflexivity.
Qed.





(** X8.  [Bread.__init__] returns exactly when the model class has
    [_meta] and is a subclass of [Model], [validate_fieldspec] accepts
    every column of the browse view, and none of the settings that were
    moved to [BrowseView] is present on the object. *)
Theorem init_succeeds_iff vf (c : Bread.config) :
  (exists b, Bread.__init__ vf c = Ok b)
  <-> (exists m,
         Bread._meta (Bread.cfg_model c) = Some m /\
         Bread.is_Model_subclass (Bread.cfg_model c) = true /\
         Bread.validate_columns vf m (columns (Bread.cfg_browse_view c))
         = None) /\
      Bread.has_paginate_by c = false /\ Bread.has_columns c = false /\
      Bread.has_filter c = false /\ Bread.has_filterset c = false.
Proof.
  split.
  - intros [b Hinit].
    destruct (init_Ok_inv _ _ _ Hinit)
      as (m & Hm & Hsub & Hcols & Hp & Hc & Hf & Hfs & _).
    split; [exists m|]; auto.
  - intros [(m & Hm & Hsub & Hcols) (Hp & Hc & Hf & Hfs)].
    unfold Bread.__init__. rewrite Hm, Hsub, Hcols, Hp, Hc, Hf, Hfs.
    simpl. eauto.
Qed.

(** X9.  The permissions a view asks for are those the class docstring
    of [Bread] names: for a view of an object that [__init__] returned,
    the full permission name is the application label, a dot, the short
    name, an underscore and the [name] of the object. *)
Theorem permission_names_after_init vf (c : Bread.config)
    (self : BreadViewMixin.t) (short_name : string) :
  Bread.__init__ vf c = Ok (BreadViewMixin.bread self) ->
  BreadViewMixin.get_full_perm_name self short_name
  = app_label (Bread.model (BreadViewMixin.bread self)) +:+ "." +:+
    short_name +:+ "_" +:+ Bread.name (BreadViewMixin.bread self).
Proof.
  intros Hinit.
  destruct (init_Ok_inv _ _ _ Hinit)
    as (m & _ & _ & _ & _ & _ & _ & _ & Hmodel & Hname & _).
  unfold BreadViewMixin.get_full_perm_name. now rewrite Hname, Hmodel.
Qed.

(** ** Permissions *)

Lemma full_perm_name_inj (self : BreadViewMixin.t) s1 s2 :
  BreadViewMixin.get_full_perm_name self s1
  = BreadViewMixin.get_full_perm_name self s2 ->
  s1 = s2.
Proof.
  unfold BreadViewMixin.get_full_perm_name. intros H.
  apply (inj (String.append _)), (inj (String.append _)) in H.
  now apply append_inv_tail in H.
Qed.

(** X10.  Two short permission names give the same full permission
    name only when they are equal; so the five view classes of one
    model require five different permissions. *)
Theorem full_perm_names_distinct (self : BreadViewMixin.t) (s1 s2 : string) :
  (BreadViewMixin.get_full_perm_name self s1
   = BreadViewMixin.get_full_perm_name self s2 <-> s1 = s2) /\
  NoDup ((fun op => BreadViewMixin.get_full_perm_name self
                      (perm_name (standard_class op)))
         <$> [Browse; Read; Edit; Add; Delete]).
Proof.
  split.
  - split; [apply full_perm_name_inj|now intros ->].
  - apply NoDup_fmap_2_strong.
    + intros op op' _ _ H. apply full_perm_name_inj in H.
      destruct op, op'; solve [reflexivity | discriminate].
    + repeat (apply NoDup_cons; split;
              [rewrite ?elem_of_cons, elem_of_nil; intuition discriminate|]).
      apply NoDup_nil_2.
Qed.

(** X11.  [dispatch] hands the request to the parent view only for an
    authenticated user who has the permission
    [app_label.perm_name_modelname]; for any other request the outcome
    does not depend on the parent view: an anonymous user is redirected
    to the login page with the full path of the request, whatever
    [has_perm] says, and an authenticated user without the permission
    gets [PermissionDenied]. *)
Theorem dispatch_guard (login_url redirect_field_name : string)
    (super_dispatch : result HttpResponse) (self : BreadViewMixin.t)
    (request : HttpRequest) :
  (is_authenticated (user request) = true ->
   has_perm (user request)
     (app_label (Bread.model (BreadViewMixin.bread self)) +:+ "." +:+
      perm_name (BreadViewMixin.class self) +:+ "_" +:+
      str_lower (object_name (Bread.model (BreadViewMixin.bread self))))
   = true ->
   BreadViewMixin.dispatch login_url redirect_field_name super_dispatch
     self request = super_dispatch) /\
  (is_authenticated (user request) = false ->
   forall other,
     BreadViewMixin.dispatch login_url redirect_field_name other self request
     = Ok (redirect_to_login (get_full_path request) login_url
             redirect_field_name)) /\
  (is_authenticated (user request) = true ->
   has_perm (user request) (BreadViewMixin.permission_required self) = false ->
   forall other,
     BreadViewMixin.dispatch login_url redirect_field_name other self request
     = Raise (Exception "PermissionDenied")).
Proof.
  unfold BreadViewMixin.dispatch, BreadViewMixin.permission_required,
    BreadViewMixin.get_full_perm_name.
  repeat split.
  - intros -> ->. reflexivity.
  - intros -> other. reflexivity.
  - intros -> -> other. reflexivity.
Qed.

Lemma may_flag (self : BreadViewMixin.t) (data : gmap string cell) op :
  BreadViewMixin.get_context_data self data !! may_key op
  = Some (Cell (Entry (VBool (
      in_str (letter op) (Bread.views (BreadViewMixin.bread self)) &&
      has_perm (user (BreadViewMixin.request self))
        (BreadViewMixin.get_full_perm_name self
           (perm_name (standard_class op))))))).
Proof.
  unfold BreadViewMixin.get_context_data.
  destruct op; simpl may_key;
    repeat (rewrite lookup_insert_ne by discriminate);
    now rewrite lookup_insert_eq.
Qed.

(** X12.  The flags [may_browse], [may_read], [may_edit], [may_add] and
    [may_delete] of the template context agree with the views: for an
    authenticated user and an operation whose letter is in [views], the
    flag is true when [dispatch] of the view class of that operation
    lets the request through, and false when it raises
    [PermissionDenied]. *)
Theorem may_flags_agree_with_dispatch (self v : BreadViewMixin.t)
    (data : gmap string cell) (op : operation)
    (login_url redirect_field_name : string)
    (super_dispatch : result HttpResponse) :
  BreadViewMixin.bread v = BreadViewMixin.bread self ->
  BreadViewMixin.class v = standard_class op ->
  is_authenticated (user (BreadViewMixin.request self)) = true ->
  in_str (letter op) (Bread.views (BreadViewMixin.bread self)) = true ->
  (BreadViewMixin.get_context_data self data !! may_key op
   = Some (Cell (Entry (VBool true))) /\
   BreadViewMixin.dispatch login_url redirect_field_name super_dispatch v
     (BreadViewMixin.request self) = super_dispatch) \/
  (BreadViewMixin.get_context_data self data !! may_key op
   = Some (Cell (Entry (VBool false))) /\
   BreadViewMixin.dispatch login_url redirect_field_name super_dispatch v
     (BreadViewMixin.request self) = Raise (Exception "PermissionDenied")).
Proof.
  intros Hbread Hclass Hauth Hletter. rewrite may_flag, Hletter.
  unfold BreadViewMixin.dispatch, BreadViewMixin.permission_required,
    BreadViewMixin.get_full_perm_name.
  rewrite Hauth, Hbread, Hclass. simpl.
  destruct (has_perm _ _); [left|right]; split; reflexivity.
Qed.

(** X13.  A flag of the template context is true only for an operation
    that [get_urls] registers: the templates are never told that the
    user may use a view that has no URL. *)
Theorem may_flag_has_url (self : BreadViewMixin.t)
    (data : gmap string cell) (op : operation) (prefix : bool) :
  BreadViewMixin.get_context_data self data !! may_key op
  = Some (Cell (Entry (VBool true))) ->
  Bread.get_url_name (BreadViewMixin.bread self) (view_name op) false
    ∈ (Bread.url_name <$> Bread.get_urls (BreadViewMixin.bread self) prefix).
Proof.
  rewrite may_flag. intros [= H].
  apply get_urls_registers_operation.
  now apply andb_true_iff in H as [H _].
Qed.

(** ** Query strings, templates and forms *)



(** X16.  A view cannot clear the exclusions of its [Bread] object: when
    no form class is declared and the view's [exclude] is [None] or the
    empty list, the model form is made with the [exclude] of the
    [Bread] object. *)
Theorem empty_exclude_falls_back (self : BreadViewMixin.t) :
  BreadViewMixin.form_class self = None ->
  Bread.form_class (BreadViewMixin.bread self) = None ->
  BreadViewMixin.exclude self = None \/ BreadViewMixin.exclude self = Some [] ->
  BreadViewMixin.get_form self
  = BreadViewMixin.modelform_factory
      (Bread.model (BreadViewMixin.bread self)) "__all__"
      (Bread.exclude (BreadViewMixin.bread self)).
Proof.
  intros Hv Hb Hex. unfold BreadViewMixin.get_form. rewrite Hv, Hb.
  now destruct Hex as [-> | ->].
Qed.

(** ** Pagination links of the browse view *)

(** X17.  On page [n] of [N] the browse view adds [first_url] when
    [n > 1], [previous_url] when [n > 2], [next_url] when [n + 1 < N]
    and [last_url] when [n < N], each made by [_get_new_url] for the
    page it names; so the previous and next links are left out where
    they would repeat the first and last ones.  A key it does not set
    keeps the entry of the parent's dict. *)
Theorem pagination_links (urlencode : gmap string qvalue -> string)
    (self : BreadViewMixin.t) (filter : option string)
    (data : gmap string cell) (flag : cell) (n N : Z) (p : page) :
  data !! "is_paginated" = Some flag -> truthy flag = true ->
  data !! "page_obj" = Some (PageObj p) ->
  data !! "paginator" = Some (Paginator N) ->
  page_of n N p ->
  exists data',
    BrowseView.get_context_data urlencode self filter data = Ok data' /\
    data' !! "first_url"
    = (if (1 <? n)%Z
       then Some (Cell (Entry (VStr (BreadViewMixin._get_new_url urlencode
                                       self (BrowseView.page_parm 1)))))
       else data !! "first_url") /\
    data' !! "previous_url"
    = (if (2 <? n)%Z
       then Some (Cell (Entry (VStr (BreadViewMixin._get_new_url urlencode
                                       self (BrowseView.page_parm (n - 1))))))
       else data !! "previous_url") /\
    data' !! "next_url"
    = (if (n + 1 <? N)%Z
       then Some (Cell (Entry (VStr (BreadViewMixin._get_new_url urlencode
                                       self (BrowseView.page_parm (n + 1))))))
       else data !! "next_url") /\
    data' !! "last_url"
    = (if (n <? N)%Z
       then Some (Cell (Entry (VStr (BreadViewMixin._get_new_url urlencode
                                       self (BrowseView.page_parm N)))))
       else data !! "last_url").
Proof.
  intros Hflag Htrue Hpage Hpaginator (Hn & Hnn & Hp & Hpn).
  unfold BrowseView.get_context_data.
  repeat (rewrite lookup_insert_ne by discriminate).
  rewrite Hflag, Hpage, Hpaginator. simpl default. rewrite Htrue.
  rewrite Hn, Hnn, Hp, Hpn. eexists. split; [reflexivity|].
  destruct (Z.ltb_spec n N), (Z.eqb_spec (n + 1) N), (Z.ltb_spec 1 n),
    (Z.eqb_spec (n - 1) 1), (Z.ltb_spec (n + 1) N), (Z.ltb_spec 2 n);
    try lia; simpl; repeat split;
    repeat first [ rewrite lookup_insert_eq
                 | rewrite lookup_insert_ne by discriminate ];
    reflexivity.
Qed.

(** X18.  The browse view raises only when the parent's dict says the
    list is paginated and lacks a page under ['page_obj'] or a
    paginator under ['paginator']; when the list is not paginated it
    adds ['columns'] and ['filter'] and nothing else. *)
Theorem browse_context_errors (urlencode : gmap string qvalue -> string)
    (self : BreadViewMixin.t) (filter : option string)
    (data : gmap string cell) :
  ((exists e, BrowseView.get_context_data urlencode self filter data = Raise e)
   <-> truthy (default (Cell (Entry (VBool false)))
                 (data !! "is_paginated")) = true /\
       ~ (exists p N, data !! "page_obj" = Some (PageObj p) /\
                      data !! "paginator" = Some (Paginator N))) /\
  (truthy (default (Cell (Entry (VBool false)))
             (data !! "is_paginated")) = false ->
   BrowseView.get_context_data urlencode self filter data
   = Ok (<["filter" := Filter filter]>
           (<["columns" := Columns (columns (BreadViewMixin.class self))]>
              data))).
Proof.
  unfold BrowseView.get_context_data.
  repeat (rewrite lookup_insert_ne by discriminate).
  destruct (truthy (default _ (data !! "is_paginated"))).
  - split; [|discriminate]. split.
    + intros [e He]. split; [reflexivity|].
      intros (p & N & Hp & HN). rewrite Hp, HN in He. discriminate.
    + intros [_ Hno].
      destruct (data !! "page_obj") as [page_obj|]; [|eauto].
      destruct (data !! "paginator") as [[| | | | |N]|]; eauto.
      destruct page_obj as [| | | |p|]; eauto.
      exfalso. apply Hno. eauto.
  - split; [|reflexivity]. split.
    + intros [e He]. discriminate.
    + intros [Hp _]. discriminate.
Qed.

Lemma browse_context_frame (urlencode : gmap string qvalue -> string)
    (self : BreadViewMixin.t) (filter : option string)
    (data d : gmap string cell) (k : string) :
  BrowseView.get_context_data urlencode self filter data = Ok d ->
  k <> "columns" -> k <> "filter" -> k <> "next_url" -> k <> "last_url" ->
  k <> "first_url" -> k <> "previous_url" ->
  d !! k = data !! k.
Proof.
  unfold BrowseView.get_context_data. intros Hd ? ? ? ? ? ?.
  destruct (truthy _).
  - destruct (_ !! "page_obj") as [page_obj|]; [|discriminate].
    destruct (_ !! "paginator") as [[| | | | |N]|]; try discriminate.
    destruct page_obj as [| | | |p|]; try discriminate.
    injection Hd as <-.
    destruct (has_next p), (has_previous p),
      (negb (next_page_number p =? N)%Z),
      (negb (previous_page_number p =? 1)%Z);
      repeat (rewrite lookup_insert_ne by congruence); reflexivity.
  - injection Hd as <-.
    repeat (rewrite lookup_insert_ne by congruence); reflexivity.
Qed.

(** X19.  The browse view adds to the context of [BreadViewMixin]
    without disturbing it: in the dict it returns, each of the five
    [may_] flags is still the one [BreadViewMixin.get_context_data]
    computed, whatever the pagination. *)
Theorem browse_context_keeps_flags (urlencode : gmap string qvalue -> string)
    (self : BreadViewMixin.t) (filter : option string)
    (data d : gmap string cell) (op : operation) :
  BrowseView.get_context_data urlencode self filter
    (BreadViewMixin.get_context_data self data) = Ok d ->
  d !! may_key op
  = Some (Cell (Entry (VBool (
      in_str (letter op) (Bread.views (BreadViewMixin.bread self)) &&
      has_perm (user (BreadViewMixin.request self))
        (BreadViewMixin.get_full_perm_name self
           (perm_name (standard_class op))))))).
Proof.
  intros Hd. rewrite <- (may_flag self data op).
  apply (browse_context_frame _ _ _ _ _ _ Hd); destruct op; discriminate.
Qed.

(** ** Field lists in parts *)

Lemma read_fields_inj (ctx : context) (out out' : list read_field) :
  <["read_fields" := ReadFields out]> ctx
  = <["read_fields" := ReadFields out']> ctx ->
  out = out'.
Proof.
  intros H. apply (f_equal (fun m => m !! "read_fields")) in H.
  rewrite !lookup_insert_eq in H. congruence.
Qed.

(** X20.  Resolving a field list in two parts gives the same as
    resolving it whole: the pairs of the first part followed by those of
    the second, resolved from the state the first part left; and when
    the first part raises, the second is not resolved at all. *)
Theorem read_fields_concatenate {world : Type} (o : model_instance world)
    (l1 l2 : list (value * evaluator world)) (ctx : context) (w : world) :
  (forall out1 w1 out2 w2,
     get_context_data o l1 ctx w
     = (Ok (<["read_fields" := ReadFields out1]> ctx), w1) ->
     get_context_data o l2 ctx w1
     = (Ok (<["read_fields" := ReadFields out2]> ctx), w2) ->
     get_context_data o (l1 ++ l2) ctx w
     = (Ok (<["read_fields" := ReadFields (out1 ++ out2)]> ctx), w2)) /\
  (forall x w1,
     get_context_data o l1 ctx w = (Raise x, w1) ->
     get_context_data o (l1 ++ l2) ctx w = (Raise x, w1)).
Proof.
  rewrite !get_context_data_run, comprehension_app.
  destruct (comprehension _ l1 w) as [[o1|x1] w1']; split.
  - intros out1 w1 out2 w2 [= H1 ->]. apply read_fields_inj in H1 as ->.
    rewrite get_context_data_run.
    destruct (comprehension _ l2 w1) as [[o2|x2] w2']; [|discriminate].
    intros [= H2 ->]. now apply read_fields_inj in H2 as ->.
  - discriminate.
  - discriminate.
  - intros x w1 [= -> ->]. reflexivity.
Qed.

(** ** Instances on the sample site *)

Example sample_init :
  Bread.__init__ SampleSite.accept SampleSite.settings = Ok SampleSite.books.
Proof. reflexivity. Qed.

Example sample_urls :
  (fun u => (Bread.regex u, Bread.url_name u))
  <$> Bread.get_urls SampleSite.books true
  = [ ("^bookcopys/$", "browse_bookcopys");
      ("^bookcopys/(?P<pk>\d+)/$", "read_bookcopy");
      ("^bookcopys/(?P<pk>\d+)/delete/$", "delete_bookcopy") ].
Proof. reflexivity. Qed.

Lemma get_urls_letters_only_witness :
  (fun u => (Bread.regex u, Bread.url_name u))
  <$> Bread.get_urls SampleSite.books true
  = (fun u => (Bread.regex u, Bread.url_name u))
    <$> Bread.get_urls SampleSite.shuffled true.
Proof.
  apply (get_urls_letters_only SampleSite.books SampleSite.shuffled true);
    [intros op; destruct op; reflexivity|reflexivity|reflexivity].
Defined.


Lemma permission_names_after_init_witness :
  BreadViewMixin.get_full_perm_name
    (SampleSite.view_of EditView SampleSite.page_two) "change"
  = app_label (Bread.model SampleSite.books) +:+ "." +:+ "change" +:+ "_"
    +:+ Bread.name SampleSite.books.
Proof.
  apply (permission_names_after_init SampleSite.accept SampleSite.settings
           (SampleSite.view_of EditView SampleSite.page_two) "change").
  reflexivity.
Defined.

Lemma may_flags_agree_with_dispatch_witness :
  (BreadViewMixin.get_context_data
     (SampleSite.view_of BrowseView SampleSite.page_two) ∅ !! may_key Delete
   = Some (Cell (Entry (VBool true))) /\
   BreadViewMixin.dispatch "/login/" "next" (Ok (Response 200 "gone"))
     (SampleSite.view_of DeleteView SampleSite.page_two) SampleSite.page_two
   = Ok (Response 200 "gone")) \/
  (BreadViewMixin.get_context_data
     (SampleSite.view_of BrowseView SampleSite.page_two) ∅ !! may_key Delete
   = Some (Cell (Entry (VBool false))) /\
   BreadViewMixin.dispatch "/login/" "next" (Ok (Response 200 "gone"))
     (SampleSite.view_of DeleteView SampleSite.page_two) SampleSite.page_two
   = Raise (Exception "PermissionDenied")).
Proof.
  apply (may_flags_agree_with_dispatch
           (SampleSite.view_of BrowseView SampleSite.page_two)
           (SampleSite.view_of DeleteView SampleSite.page_two) ∅ Delete
           "/login/" "next" (Ok (Response 200 "gone")));
    reflexivity.
Defined.

Lemma may_flag_has_url_witness :
  Bread.get_url_name
    (BreadViewMixin.bread (SampleSite.view_of ReadView SampleSite.page_two))
    (view_name Browse) false
    ∈ (Bread.url_name <$>
       Bread.get_urls
         (BreadViewMixin.bread
            (SampleSite.view_of ReadView SampleSite.page_two)) false).
Proof.
  apply (may_flag_has_url (SampleSite.view_of ReadView SampleSite.page_two)
           ∅ Browse false).
  reflexivity.
Defined.



Lemma empty_exclude_falls_back_witness :
  BreadViewMixin.get_form (SampleSite.view_of EditView SampleSite.page_one)
  = BreadViewMixin.modelform_factory SampleSite.book "__all__"
      (Some ["isbn"]).
Proof.
  apply (empty_exclude_falls_back
           (SampleSite.view_of EditView SampleSite.page_one));
    [reflexivity|reflexivity|right; reflexivity].
Defined.

Lemma pagination_links_witness :
  exists data',
    BrowseView.get_context_data SampleSite.urlencode
      (SampleSite.view_of BrowseView SampleSite.page_two) None
      SampleSite.listing = Ok data' /\
    data' !! "first_url"
    = (if (1 <? 2)%Z
       then Some (Cell (Entry (VStr (BreadViewMixin._get_new_url
               SampleSite.urlencode
               (SampleSite.view_of BrowseView SampleSite.page_two)
               (BrowseView.page_parm 1)))))
       else SampleSite.listing !! "first_url") /\
    data' !! "previous_url"
    = (if (2 <? 2)%Z
       then Some (Cell (Entry (VStr (BreadViewMixin._get_new_url
               SampleSite.urlencode
               (SampleSite.view_of BrowseView SampleSite.page_two)
               (BrowseView.page_parm (2 - 1))))))
       else SampleSite.listing !! "previous_url") /\
    data' !! "next_url"
    = (if (2 + 1 <? 5)%Z
       then Some (Cell (Entry (VStr (BreadViewMixin._get_new_url
               SampleSite.urlencode
               (SampleSite.view_of BrowseView SampleSite.page_two)
               (BrowseView.page_parm (2 + 1))))))
       else SampleSite.listing !! "next_url") /\
    data' !! "last_url"
    = (if (2 <? 5)%Z
       then Some (Cell (Entry (VStr (BreadViewMixin._get_new_url
               SampleSite.urlencode
               (SampleSite.view_of BrowseView SampleSite.page_two)
               (BrowseView.page_parm 5)))))
       else SampleSite.listing !! "last_url").
Proof.
  apply (pagination_links SampleSite.urlencode
           (SampleSite.view_of BrowseView SampleSite.page_two) None
           SampleSite.listing (Cell (Entry (VBool true))) 2 5
           SampleSite.second); try reflexivity.
  repeat split.
Defined.

(** Page 2 of 5: the previous page is the first one. *)
Example sample_links :
  match BrowseView.get_context_data SampleSite.urlencode
          (SampleSite.view_of BrowseView SampleSite.page_two) None
          SampleSite.listing with
  | Ok d =>
      (fun k => d !! k)
      <$> ["first_url"; "previous_url"; "next_url"; "last_url"]
  | Raise _ => []
  end
  = [ Some (Cell (Entry (VStr "/books/?2@1"))); None;
      Some (Cell (Entry (VStr "/books/?2@3")));
      Some (Cell (Entry (VStr "/books/?2@5"))) ].
Proof. reflexivity. Qed.

Lemma browse_context_keeps_flags_witness :
  <["filter" := Filter None]>
    (<["columns" := Columns []]>
       (BreadViewMixin.get_context_data
          (SampleSite.view_of BrowseView SampleSite.page_one) ∅))
  !! may_key Read
  = Some (Cell (Entry (VBool (
      in_str (letter Read) (Bread.views SampleSite.books) &&
      has_perm SampleSite.librarian
        (BreadViewMixin.get_full_perm_name
           (SampleSite.view_of BrowseView SampleSite.page_one)
           (perm_name (standard_class Read))))))).
Proof.
  apply (browse_context_keeps_flags SampleSite.urlencode
           (SampleSite.view_of BrowseView SampleSite.page_one) None ∅
           _ Read).
  reflexivity.
Defined.
